(** * Personal budget tracker: transaction store, aggregation and date validation

    A shallow embedding of [budget_tracker.py] and the properties of its
    transaction store ([BudgetTracker]), its aggregate queries and
    [validate_date].

    Modelling conventions.
    - A Python [str] is a [string]; a character stands for the code point of
      the same number, so the model covers the strings whose code points are
      below 256.  In that range the regular-expression class [\d] and [int()]
      know exactly the digits 0-9; the decimal digits of other scripts, which
      both accept as well, are outside the model.
    - Amounts are Python [int]s ([Z]), as in [add_transaction(100, ...)].
      Formatting an [int] with [:.2f] converts it to a float, which raises
      [OverflowError] beyond the range of binary64; the arithmetic of floats
      (the amounts that [float(input())] stores at the prompts) is outside
      the model.
    - A raised exception is a value of [result]; [try ... except ValueError]
      is [try_except].
    - [datetime.datetime.now()] is an explicit argument [now].
    - The lines typed at a prompt ([input()]) are a list, each line with the
      clock reading of its round; a prompt loop that has used up the list is
      still waiting. *)

From Stdlib Require Import ZArith Ascii String List Lia DecimalString.
From stdpp Require Import gmap strings list.

Local Open Scope Z_scope.

(** ** Exceptions *)

Inductive exn : Type :=
| ValueError (msg : string)
| KeyError (key : string)
| OverflowError (msg : string).

Inductive result (A : Type) : Type :=
| Return (a : A)
| Raise (e : exn).

Arguments Return {A} a.
Arguments Raise {A} e.

Definition bind {A B : Type} (r : result A) (k : A -> result B) : result B :=
  match r with
  | Return a => k a
  | Raise e => Raise e
  end.

#[global] Instance result_ret : MRet result := @Return.
#[global] Instance result_bind : MBind result := fun A B k r => bind r k.

(** [try: body except ValueError as e: handler e] *)
Definition try_except {A : Type} (body : result A) (handler : string -> result A)
  : result A :=
  match body with
  | Raise (ValueError msg) => handler msg
  | other => other
  end.

(** [for x in xs: state = body state x], stopping at the first exception. *)
Fixpoint for_each {A S : Type} (body : S -> A -> result S) (xs : list A) (s : S)
  : result S :=
  match xs with
  | [] => Return s
  | x :: xs' => s' ← body s x; for_each body xs' s'
  end.

(** ** Python built-ins used by the program *)

Module Py.

Definition code (c : ascii) : Z := Z.of_N (N_of_ascii c).

Definition is_digit (c : ascii) : bool := (48 <=? code c) && (code c <=? 57).

Definition digit_val (c : ascii) : Z := code c - 48.

(** [str.isspace] on one character, code points below 256. *)
Definition is_space (c : ascii) : bool :=
  let n := code c in
  ((9 <=? n) && (n <=? 13)) || ((28 <=? n) && (n <=? 32))
  || (n =? 133) || (n =? 160).

(** [str(n)] for an [int]. *)
Definition str (n : Z) : string := NilZero.string_of_int (Z.to_int n).

Definition hex_digit (n : Z) : ascii :=
  ascii_of_N (Z.to_N (if n <? 10 then 48 + n else 87 + n)).

Definition is_printable (c : ascii) : bool :=
  let n := code c in
  ((32 <=? n) && (n <? 127)) || ((161 <=? n) && negb (n =? 173)).

Fixpoint contains (c : ascii) (s : string) : bool :=
  match s with
  | EmptyString => false
  | String c' s' => Ascii.eqb c c' || contains c s'
  end.

Definition dquote : ascii := ascii_of_N 34.

Fixpoint repr_body (quote : ascii) (s : string) : string :=
  match s with
  | EmptyString => EmptyString
  | String c s' =>
      let n := code c in
      (if Ascii.eqb c quote || (n =? 92) then String "\" (String c EmptyString)
       else if n =? 9 then "\t"
       else if n =? 10 then "\n"
       else if n =? 13 then "\r"
       else if is_printable c then String c EmptyString
       else String "\" (String "x" (String (hex_digit (n / 16))
              (String (hex_digit (n mod 16)) EmptyString))))
      +:+ repr_body quote s'
  end.

(** [repr(s)] for a [str]: single quotes unless the string has a single
    quote and no double quote. *)
Definition repr (s : string) : string :=
  let quote : ascii :=
    if contains "'" s && negb (contains dquote s) then dquote else "'"%char in
  String quote (repr_body quote s) +:+ String quote EmptyString.

(** The white space that [int()] skips around the digits; unlike
    [str.strip], it keeps the separators [\x1c] to [\x1f]. *)
Definition is_int_space (c : ascii) : bool :=
  let n := code c in
  ((9 <=? n) && (n <=? 13)) || (n =? 32) || (n =? 133) || (n =? 160).

(** [s] without the leading, or the trailing, characters of the class
    [space]. *)
Fixpoint lstrip (space : ascii -> bool) (s : string) : string :=
  match s with
  | EmptyString => EmptyString
  | String c s' => if space c then lstrip space s' else s
  end.

Fixpoint rstrip (space : ascii -> bool) (s : string) : string :=
  match s with
  | EmptyString => EmptyString
  | String c s' =>
      match rstrip space s' with
      | EmptyString => if space c then EmptyString else String c EmptyString
      | r => String c r
      end
  end.

(** [s.strip()] *)
Definition strip (s : string) : string := rstrip is_space (lstrip is_space s).

(** *** [int(s)], base 10 *)

(** Digits with single underscores between them; [after_digit] tells
    whether the previous character was a digit. *)
Fixpoint digits (acc : Z) (after_digit : bool) (s : string) : option Z :=
  match s with
  | EmptyString => if after_digit then Some acc else None
  | String c s' =>
      if is_digit c then digits (10 * acc + digit_val c) true s'
      else if Ascii.eqb c "_" && after_digit then digits acc false s'
      else None
  end.

Definition int (s : string) : result Z :=
  let invalid :=
    Raise (ValueError ("invalid literal for int() with base 10: " +:+ repr s)) in
  match rstrip is_int_space (lstrip is_int_space s) with
  | EmptyString => invalid
  | String c ds =>
      if Ascii.eqb c "-" then
        match digits 0 false ds with Some n => Return (- n) | None => invalid end
      else if Ascii.eqb c "+" then
        match digits 0 false ds with Some n => Return n | None => invalid end
      else
        match digits 0 false (String c ds) with
        | Some n => Return n
        | None => invalid
        end
  end.

(** *** [s.split(sep)] for a one-character separator *)
Fixpoint split (sep : ascii) (s : string) : list string :=
  match s with
  | EmptyString => [EmptyString]
  | String c s' =>
      if Ascii.eqb c sep then EmptyString :: split sep s'
      else match split sep s' with
           | p :: ps => String c p :: ps
           | [] => [String c EmptyString]
           end
  end.

(** [a, b, c = map(f, parts)]: the iterator is consumed item by item, and
    a fourth item is requested to check that there is none. *)
Definition unpack3 {A B : Type} (f : A -> result B) (parts : list A)
  : result (B * B * B) :=
  match parts with
  | [] =>
      Raise (ValueError "not enough values to unpack (expected 3, got 0)")
  | [a] =>
      _ ← f a;
      Raise (ValueError "not enough values to unpack (expected 3, got 1)")
  | [a; b] =>
      _ ← f a; _ ← f b;
      Raise (ValueError "not enough values to unpack (expected 3, got 2)")
  | a :: b :: c :: rest =>
      x ← f a; y ← f b; z ← f c;
      match rest with
      | [] => Return (x, y, z)
      | d :: _ =>
          _ ← f d;
          Raise (ValueError "too many values to unpack (expected 3)")
      end
  end.

(** [a, b = map(f, parts)] *)
Definition unpack2 {A B : Type} (f : A -> result B) (parts : list A)
  : result (B * B) :=
  match parts with
  | [] =>
      Raise (ValueError "not enough values to unpack (expected 2, got 0)")
  | [a] =>
      _ ← f a;
      Raise (ValueError "not enough values to unpack (expected 2, got 1)")
  | a :: b :: rest =>
      x ← f a; y ← f b;
      match rest with
      | [] => Return (x, y)
      | c :: _ =>
          _ ← f c;
          Raise (ValueError "too many values to unpack (expected 2)")
      end
  end.

(** [[f(x) for x in xs if cond(x)]]: the items are appended one by one. *)
Definition list_comp {A B : Type} (f : A -> B) (cond : A -> bool) (xs : list A)
  : list B :=
  fold_left (fun acc x => if cond x then acc ++ [f x] else acc) xs [].

(** The truth value of an optional object: [None] is false. *)
Definition truthy {A : Type} (o : option A) : bool :=
  match o with Some _ => true | None => false end.

(** [sum(xs)]: a left-to-right accumulation from 0. *)
Definition sum (xs : list Z) : Z := fold_left Z.add xs 0.

(** *** [float(n)] and [f"{n:.2f}"] for an [int] *)

(** The binary64 value nearest to a non-negative [int], written as the
    integer it equals: the 53 leading bits, rounded half to even. *)
Definition nearest_float (a : Z) : Z :=
  let shift := Z.log2 a - 52 in
  if shift <=? 0 then a
  else
    let q := a / 2 ^ shift in
    let r := a mod 2 ^ shift in
    let half := 2 ^ (shift - 1) in
    let q := if (half <? r) || ((r =? half) && Z.odd q) then q + 1 else q in
    q * 2 ^ shift.

(** [float(n)]: the conversion raises when the rounded value is beyond the
    largest exponent of binary64. *)
Definition float (n : Z) : result Z :=
  let x := nearest_float (Z.abs n) in
  if 2 ^ 1024 <=? x then
    Raise (OverflowError "int too large to convert to float")
  else Return (Z.sgn n * x).

(** [f"{n:.2f}"]: the [int] is converted to a float, whose digits are then
    written in full. *)
Definition format_2f (n : Z) : result string :=
  x ← float n; Return (str x +:+ ".00").

(** [f"{n:8.2f}"]: the same, right-aligned in eight columns. *)
Definition format_8_2f (n : Z) : result string :=
  s ← format_2f n;
  Return (String.concat "" (repeat " "%string (8 - String.length s)%nat) +:+ s).

(** Zero-padded decimal of a non-negative [int], as [%02d] and [%04d]. *)
Definition zero_pad (width : nat) (n : Z) : string :=
  let s := str n in
  String.concat "" (repeat "0"%string (width - String.length s)%nat) +:+ s.

End Py.

(** ** Regular expressions: the fragment of [re] the program relies on

    A backtracking matcher in continuation-passing style: an alternation
    tries its branches from left to right and keeps the first one under which
    the rest of the pattern matches, as [re] does. *)

Module re.

Inductive regex : Type :=
| Eps
| Bol                                   (* ^ *)
| Eol                                   (* $ *)
| Class (p : ascii -> bool)             (* one character of a class *)
| Seq (r1 r2 : regex)
| Alt (r1 r2 : regex)
| Group (name : string) (r : regex).    (* (?P<name>...) *)

Definition lit (c : ascii) : regex := Class (Ascii.eqb c).
Definition digit : regex := Class Py.is_digit.                       (* \d *)
Definition range (lo hi : ascii) : regex :=
  Class (fun c => (Py.code lo <=? Py.code c) && (Py.code c <=? Py.code hi)).

(** [r{n}] *)
Fixpoint times (n : nat) (r : regex) : regex :=
  match n with
  | O => Eps
  | S n' => Seq r (times n' r)
  end.

Fixpoint seq (rs : list regex) : regex :=
  match rs with
  | [] => Eps
  | r :: rs' => Seq r (seq rs')
  end.

Fixpoint alt (r : regex) (rs : list regex) : regex :=
  match rs with
  | [] => r
  | r' :: rs' => Alt r (alt r' rs')
  end.

Definition newline : ascii := ascii_of_N 10.

Record Match : Type := { end_ : nat; groupdict : list (string * string) }.

Fixpoint take (n : nat) (s : string) : string :=
  match n, s with
  | S n', String c s' => String c (take n' s')
  | _, _ => EmptyString
  end.

Fixpoint drop (n : nat) (s : string) : string :=
  match n, s with
  | S n', String c s' => drop n' s'
  | _, _ => s
  end.

(** [pos] is the number of characters consumed so far and [s] the rest of
    the subject. Without MULTILINE, [$] holds at the end of the subject and
    just before a newline that ends it. *)
Fixpoint run {A : Type} (r : regex) (pos : nat) (s : string)
    (g : list (string * string))
    (k : nat -> string -> list (string * string) -> option A) : option A :=
  match r with
  | Eps => k pos s g
  | Bol => if Nat.eqb pos 0 then k pos s g else None
  | Eol =>
      match s with
      | EmptyString => k pos s g
      | String c EmptyString => if Ascii.eqb c newline then k pos s g else None
      | _ => None
      end
  | Class p =>
      match s with
      | String c s' => if p c then k (S pos) s' g else None
      | EmptyString => None
      end
  | Seq r1 r2 => run r1 pos s g (fun pos' s' g' => run r2 pos' s' g' k)
  | Alt r1 r2 =>
      match run r1 pos s g k with
      | Some a => Some a
      | None => run r2 pos s g k
      end
  | Group name r' =>
      run r' pos s g
        (fun pos' s' g' => k pos' s' ((name, take (pos' - pos) s) :: g'))
  end.

(** [re.match(pattern, s)]: a match anchored at the start of [s]. *)
Definition match_ (r : regex) (s : string) : option Match :=
  run r 0 s [] (fun pos _ g => Some {| end_ := pos; groupdict := g |}).

Fixpoint group (m : list (string * string)) (name : string) : string :=
  match m with
  | [] => EmptyString
  | (n, v) :: m' => if String.eqb n name then v else group m' name
  end.

End re.

(** ** [datetime.datetime] *)

Module datetime.

Record t : Type := mk {
  year : Z; month : Z; day : Z;
  hour : Z; minute : Z; second : Z; microsecond : Z
}.

Definition is_leap (y : Z) : bool :=
  (y mod 4 =? 0) && (negb (y mod 100 =? 0) || (y mod 400 =? 0)).

Definition days_in_month (y m : Z) : Z :=
  if (m =? 2) && is_leap y then 29
  else nth (Z.to_nat m) [-1; 31; 28; 31; 30; 31; 30; 31; 31; 30; 31; 30; 31] (-1).

(** [datetime.datetime(year, month, day)] *)
Definition datetime (y m d : Z) : result t :=
  if (y <? 1) || (9999 <? y) then
    Raise (ValueError ("year " +:+ Py.str y +:+ " is out of range"))
  else if (m <? 1) || (12 <? m) then
    Raise (ValueError "month must be in 1..12")
  else if (d <? 1) || (days_in_month y m <? d) then
    Raise (ValueError "day is out of range for month")
  else Return (mk y m d 0 0 0 0).

Definition fields (a : t) : list Z :=
  [year a; month a; day a; hour a; minute a; second a; microsecond a].

Fixpoint cmp (xs ys : list Z) : comparison :=
  match xs, ys with
  | x :: xs', y :: ys' =>
      match x ?= y with
      | Eq => cmp xs' ys'
      | c => c
      end
  | [], [] => Eq
  | [], _ :: _ => Lt
  | _ :: _, [] => Gt
  end.

(** [a > b] *)
Definition gt (a b : t) : bool :=
  match cmp (fields a) (fields b) with Gt => true | _ => false end.

(** [a.strftime("%Y-%m-%d")]. The C library writes [%Y]: glibc gives the
    year without padding, so a year below 1000 has fewer than four digits
    (other C libraries pad it with zeros); from the year 1000 on all agree. *)
Definition strftime_Ymd (a : t) : string :=
  Py.str (year a) +:+ "-" +:+ Py.zero_pad 2 (month a) +:+ "-"
  +:+ Py.zero_pad 2 (day a).

(** The regular expression [_strptime] builds from ["%Y-%m-%d"]. *)
Definition Ymd_regex : re.regex :=
  re.seq
    [ re.Group "Y" (re.times 4 re.digit);
      re.lit "-";
      re.Group "m"
        (re.alt (re.Seq (re.lit "1") (re.range "0" "2"))
           [ re.Seq (re.lit "0") (re.range "1" "9");
             re.range "1" "9" ]);
      re.lit "-";
      re.Group "d"
        (re.alt (re.Seq (re.lit "3") (re.range "0" "1"))
           [ re.Seq (re.range "1" "2") re.digit;
             re.Seq (re.lit "0") (re.range "1" "9");
             re.range "1" "9";
             re.Seq (re.lit " ") (re.range "1" "9") ]) ].

(** [datetime.datetime.strptime(s, "%Y-%m-%d")] *)
Definition strptime_Ymd (s : string) : result t :=
  match re.match_ Ymd_regex s with
  | None =>
      Raise (ValueError ("time data " +:+ Py.repr s +:+
                         " does not match format '%Y-%m-%d'"))
  | Some found =>
      if negb (Nat.eqb (String.length s) (re.end_ found)) then
        Raise (ValueError ("unconverted data remains: " +:+
                           re.drop (re.end_ found) s))
      else
        y ← Py.int (re.group (re.groupdict found) "Y");
        m ← Py.int (re.group (re.groupdict found) "m");
        d ← Py.int (re.group (re.groupdict found) "d");
        datetime y m d
  end.

End datetime.

(** ** [validate_date] *)

(** [r'^\d{4}-\d{2}-\d{2}$'] *)
Definition date_pattern : re.regex :=
  re.seq [ re.Bol; re.times 4 re.digit; re.lit "-"; re.times 2 re.digit;
           re.lit "-"; re.times 2 re.digit; re.Eol ].

Definition months_with_30_days : list Z := [4; 6; 9; 11].

(** The body of the [try] block. *)
Definition validate_date_body (now : datetime.t) (date_string : string)
  : result (bool * string) :=
  if negb (Py.truthy (re.match_ date_pattern date_string)) then
    Return (false, "Date must be in YYYY-MM-DD format (e.g., 2024-01-15)")
  else
    '(year, month, day) ← Py.unpack3 Py.int (Py.split "-" date_string);
    if (month <? 1) || (12 <? month) then
      Return (false, "Month must be between 1 and 12")
    else if (day <? 1) || (31 <? day) then
      Return (false, "Day must be between 1 and 31")
    else if bool_decide (month ∈ months_with_30_days) && (30 <? day) then
      Return (false, "Month " +:+ Py.str month +:+ " has only 30 days")
    else
      (* the February check returns early or falls through *)
      let february :=
        if month =? 2 then
          let max_days :=
            if ((year mod 4 =? 0) && negb (year mod 100 =? 0))
               || (year mod 400 =? 0)
            then 29 else 28 in
          if max_days <? day then
            Some (false, "February " +:+ Py.str year +:+ " has only "
                         +:+ Py.str max_days +:+ " days")
          else None
        else None in
      match february with
      | Some failure => Return failure
      | None =>
          date_obj ← datetime.datetime year month day;
          if datetime.gt date_obj now then
            Return (false, "Date cannot be in the future!")
          else Return (true, "Valid date")
      end.

Definition validate_date (now : datetime.t) (date_string : string)
  : result (bool * string) :=
  try_except (validate_date_body now date_string)
    (fun e => Return (false, "Invalid date: " +:+ e)).

(** ** [get_valid_date]

    The prompt loop reads lines until one is accepted. [lines] are the lines
    typed, each with the clock reading when it is validated; the result is
    [None] while the loop is still prompting, [Some None] for an empty line
    (the current date is wanted) and [Some (Some d)] for an accepted date. *)
Fixpoint get_valid_date (lines : list (datetime.t * string))
  : result (option (option string)) :=
  match lines with
  | [] => Return None
  | (now, line) :: lines' =>
      let date_input := Py.strip line in
      if String.eqb date_input EmptyString then Return (Some None)
      else
        '(is_valid, message) ← validate_date now date_input;
        if is_valid : bool then Return (Some (Some date_input))
        else get_valid_date lines'
  end.

(** ** The transaction store *)

Record transaction : Type := mk_transaction {
  amount : Z;
  description : string;
  category : string;
  date : string
}.

#[global] Instance transaction_eq_dec : EqDecision transaction.
Proof. solve_decision. Defined.

(** What [view_transactions_by_month] shows once the month is chosen. *)
Inductive month_view : Type :=
| NoTransactionsRecorded
| NoTransactionsFound (target_month target_year : Z)
| MonthReport (income_transactions expense_transactions : list transaction)
    (monthly_income monthly_expenses monthly_balance : Z).

Module BudgetTracker.

Record t : Type := mk {
  transactions : list transaction;
  categories : gset string
}.

(** [__init__] *)
Definition init : t := mk [] ∅.

(** Returns the updated tracker and the outcome of the final [print]: the
    printed line, or the exception of its formatting. The record and the
    category are stored before the line is formatted. *)
Definition add_transaction (now : datetime.t) (self : t) (amount : Z)
    (description category : string) (date : option string)
  : t * result string :=
  let date :=
    match date with
    | None => datetime.strftime_Ymd now
    | Some date => date
    end in
  let transaction := mk_transaction amount description category date in
  (mk (transactions self ++ [transaction]) (categories self ∪ {[category]}),
   shown ← Py.format_2f amount;
   Return ("Added: " +:+ description +:+ " - $" +:+ shown +:+ " on "
           +:+ date)).

(** The income and expense lists of [view_transactions] and of
    [view_transactions_by_month]. *)
Definition partition_income_expense (transactions : list transaction)
  : list transaction * list transaction :=
  let income_transactions :=
    Py.list_comp (fun t => t) (fun t => 0 <? amount t) transactions in
  let expense_transactions :=
    Py.list_comp (fun t => t) (fun t => amount t <? 0) transactions in
  (income_transactions, expense_transactions).

(** The printed notice, or the two lists that are built for printing; the
    printing itself, which formats each amount with [:8.2f], is not part of
    this definition. *)
Definition view_transactions (self : t)
  : string + list transaction * list transaction :=
  match transactions self with
  | [] => inl "No transactions recorded yet!"
  | _ => inr (partition_income_expense (transactions self))
  end.

Definition total_income (transactions : list transaction) : Z :=
  Py.sum (Py.list_comp amount (fun t => 0 <? amount t) transactions).

Definition total_expenses (transactions : list transaction) : Z :=
  Py.sum (Py.list_comp amount (fun t => amount t <? 0) transactions).

(** The value returned, or the exception of one of the prints before the
    [return]. The three figures of the summary are formatted in turn; the
    advice that follows compares [balance] with [total_income * 0.1] when the
    balance is not negative, which converts [total_income] to a float once
    more. Which advice is printed is not part of the result. *)
Definition get_balance (self : t) : result Z :=
  let total_income := total_income (transactions self) in
  let total_expenses := total_expenses (transactions self) in
  let balance := total_income + total_expenses in
  _ ← Py.format_2f total_income;
  _ ← Py.format_2f (- total_expenses);
  _ ← Py.format_2f balance;
  _ ← (if balance <? 0 then Return 0 else Py.float total_income);
  Return balance.

(** [d[key]] *)
Definition getitem (d : gmap string Z) (key : string) : result Z :=
  match d !! key with
  | Some v => Return v
  | None => Raise (KeyError key)
  end.

(** One iteration of the loop that fills [category_totals]. *)
Definition accumulate (category_totals : gmap string Z)
    (transaction : transaction) : result (gmap string Z) :=
  let category := category transaction in
  let amount := amount transaction in
  if amount <? 0 then
    let category_totals :=
      if negb (bool_decide (category ∈ dom category_totals)) then
        <[category := 0]> category_totals
      else category_totals in
    old ← getitem category_totals category;
    Return (<[category := old + Z.abs amount]> category_totals)
  else Return category_totals.

Definition category_totals (transactions : list transaction)
  : result (gmap string Z) :=
  for_each accumulate transactions ∅.

(** The printed notice, or the mapping that the loop has built when the
    printing of its entries begins; the printing itself, which formats each
    total with [:.2f], is not part of this definition. *)
Definition spending_by_category (self : t) : result (string + gmap string Z) :=
  match transactions self with
  | [] => Return (inl "No transactions to analyze!")
  | _ => totals ← category_totals (transactions self); Return (inr totals)
  end.

End BudgetTracker.

(** ** [view_transactions_by_month], after the month has been read *)

(** One iteration of the filter loop. *)
Definition month_step (target_month target_year : Z)
    (month_transactions : list transaction) (transaction : transaction) :=
  trans_date ← datetime.strptime_Ymd (date transaction);
  if (datetime.month trans_date =? target_month)
     && (datetime.year trans_date =? target_year)
  then Return (month_transactions ++ [transaction])
  else Return month_transactions.

(** The filter loop. *)
Definition month_transactions (target_month target_year : Z)
    (transactions : list transaction) : result (list transaction) :=
  for_each (month_step target_month target_year) transactions [].

(** The loop that prints the entries of one list: the amount of each entry
    is formatted. *)
Definition print_entries (entries : list transaction) : result unit :=
  for_each (fun _ transaction =>
              _ ← Py.format_8_2f (amount transaction); Return tt)
    entries tt.

(** What is shown, or the exception raised on the way: by the filter loop, or
    by the formatting of an amount or of a figure of the summary. *)
Definition view_transactions_by_month (tracker : BudgetTracker.t)
    (target_month target_year : Z) : result month_view :=
  match BudgetTracker.transactions tracker with
  | [] => Return NoTransactionsRecorded
  | _ =>
      month_transactions ←
        month_transactions target_month target_year
          (BudgetTracker.transactions tracker);
      match month_transactions with
      | [] => Return (NoTransactionsFound target_month target_year)
      | _ =>
          let '(income_transactions, expense_transactions) :=
            BudgetTracker.partition_income_expense month_transactions in
          _ ← print_entries income_transactions;
          _ ← print_entries expense_transactions;
          let monthly_income := BudgetTracker.total_income month_transactions in
          let monthly_expenses :=
            BudgetTracker.total_expenses month_transactions in
          let monthly_balance := monthly_income + monthly_expenses in
          _ ← Py.format_2f monthly_income;
          _ ← Py.format_2f (- monthly_expenses);
          _ ← Py.format_2f monthly_balance;
          Return (MonthReport income_transactions expense_transactions
                    monthly_income monthly_expenses monthly_balance)
      end
  end.

(** ** The month prompt of [view_transactions_by_month] *)

(** [r'^\d{2}-\d{4}$'] *)
Definition month_pattern : re.regex :=
  re.seq [ re.Bol; re.times 2 re.digit; re.lit "-"; re.times 4 re.digit;
           re.Eol ].

(** The [try] block of the prompt loop on a non-empty input: the complaint
    that is printed before the prompt is repeated, or the month and year that
    are chosen. *)
Definition check_month_input (now : datetime.t) (month_input : string)
  : result (string + Z * Z) :=
  try_except
    (if negb (Py.truthy (re.match_ month_pattern month_input)) then
       Return (inl "Please use MM-YYYY format (e.g., 01-2024)")
     else
       '(month, year) ← Py.unpack2 Py.int (Py.split "-" month_input);
       if (month <? 1) || (12 <? month) then
         Return (inl "Month must be between 01 and 12")
       else if (year <? 1900) || (datetime.year now <? year) then
         Return (inl ("Year must be between 1900 and "
                      +:+ Py.str (datetime.year now)))
       else Return (inr (month, year)))
    (fun _ => Return (inl "Invalid format. Please use MM-YYYY (e.g., 01-2024)")).

(** The prompt loop. [lines] are the lines typed, each with the clock reading
    of its round; [None] while the loop is still prompting. *)
Fixpoint read_target_month (lines : list (datetime.t * string))
  : result (option (Z * Z)) :=
  match lines with
  | [] => Return None
  | (now, line) :: lines' =>
      let month_input := Py.strip line in
      if String.eqb month_input EmptyString then
        Return (Some (datetime.month now, datetime.year now))
      else
        checked ← check_month_input now month_input;
        match checked with
        | inr target => Return (Some target)
        | inl _ => read_target_month lines'
        end
  end.

(** ** Reference definitions used to state the properties *)

(** The sum of a list of amounts. *)
Definition sum_list (xs : list Z) : Z := foldr Z.add 0 xs.

(** The amounts strictly greater than 0, in the order of the store. *)
Definition income_amounts (ts : list transaction) : list Z :=
  amount <$> filter (λ t, 0 < amount t) ts.

(** The amounts strictly less than 0, in the order of the store. *)
Definition expense_amounts (ts : list transaction) : list Z :=
  amount <$> filter (λ t, amount t < 0) ts.

(** An [int] that [float()] converts and [:.2f] formats: its magnitude is
    below [2^1024 - 2^970], half a step beyond the largest binary64 value. *)
Definition float_convertible (n : Z) : Prop := Z.abs n < 2 ^ 1024 - 2 ^ 970.

#[global] Instance float_convertible_dec (n : Z) :
  Decision (float_convertible n).
Proof. unfold float_convertible. apply _. Defined.

(** A call returned, it did not raise. *)
Definition returns {A : Type} (r : result A) : bool :=
  match r with Return _ => true | Raise _ => false end.

(** One call of [add_transaction], with the clock reading at the call. *)
Record call : Type := mk_call {
  call_now : datetime.t;
  call_amount : Z;
  call_description : string;
  call_category : string;
  call_date : option string
}.

Definition apply_call (self : BudgetTracker.t) (c : call) : BudgetTracker.t :=
  (BudgetTracker.add_transaction (call_now c) self (call_amount c)
     (call_description c) (call_category c) (call_date c)).1.

(** The tracker after a sequence of [add_transaction] calls on a fresh one. *)
Definition run (calls : list call) : BudgetTracker.t :=
  fold_left apply_call calls BudgetTracker.init.

(** The date field of the record stored by a call. *)
Definition stored_date (now : datetime.t) (self : BudgetTracker.t) (a : Z)
    (d c : string) (dt : option string) : option string :=
  date <$> last (BudgetTracker.transactions
                   (BudgetTracker.add_transaction now self a d c dt).1).

(** The magnitudes of the negative amounts of category [c], in order. *)
Definition expenses_of (c : string) (ts : list transaction) : list Z :=
  (λ t, Z.abs (amount t)) <$> filter (λ t, category t = c ∧ amount t < 0) ts.

(** The stored date string of [t] parses to month [m] of year [y]. *)
Definition parses_to (m y : Z) (t : transaction) : bool :=
  match datetime.strptime_Ymd (date t) with
  | Return dt => (datetime.month dt =? m) && (datetime.year dt =? y)
  | Raise _ => false
  end.

Definition date_parses (t : transaction) : Prop :=
  ∃ dt, datetime.strptime_Ymd (date t) = Return dt.

(** *** Date strings *)

Fixpoint decimal_from (acc : Z) (s : string) : Z :=
  match s with
  | EmptyString => acc
  | String c s' => decimal_from (10 * acc + Py.digit_val c) s'
  end.

(** The number written by a string of decimal digits. *)
Definition decimal (s : string) : Z := decimal_from 0 s.

Fixpoint all_digits (s : string) : bool :=
  match s with
  | EmptyString => true
  | String c s' => Py.is_digit c && all_digits s'
  end.

(** Four digits, a hyphen, two digits, a hyphen, two digits at the start of
    [s]: the three numbers and what follows them. *)
Definition leading_ymd (s : string) : option (Z * Z * Z * string) :=
  match s with
  | String y1 (String y2 (String y3 (String y4 (String h1 (String m1
      (String m2 (String h2 (String d1 (String d2 rest))))))))) =>
      let year := String y1 (String y2 (String y3 (String y4 EmptyString))) in
      let month := String m1 (String m2 EmptyString) in
      let day := String d1 (String d2 EmptyString) in
      if all_digits year && Ascii.eqb "-" h1 && all_digits month
         && Ascii.eqb "-" h2 && all_digits day
      then Some (decimal year, decimal month, decimal day, rest)
      else None
  | _ => None
  end.

(** A string in YYYY-MM-DD form, and the year, month and day it writes. *)
Definition ymd_form (s : string) : option (Z * Z * Z) :=
  match leading_ymd s with
  | Some (y, m, d, EmptyString) => Some (y, m, d)
  | _ => None
  end.

(** What may follow the ten characters under the pattern's final [$]. *)
Definition ends_ok (rest : string) : bool :=
  match rest with
  | EmptyString => true
  | String c EmptyString => Ascii.eqb c re.newline
  | _ => false
  end.

(** The year, month and day fields of a string that [date_pattern] admits. *)
Definition fields (s : string) : option (Z * Z * Z) :=
  match leading_ymd s with
  | Some (y, m, d, rest) => if ends_ok rest then Some (y, m, d) else None
  | None => None
  end.

(** *** The validation rules, in the order of the specification *)

Definition leap_year (y : Z) : Prop :=
  (y mod 4 = 0 ∧ y mod 100 ≠ 0) ∨ y mod 400 = 0.

#[global] Instance leap_year_dec (y : Z) : Decision (leap_year y).
Proof. unfold leap_year. apply _. Defined.

Definition february_days (y : Z) : Z := if decide (leap_year y) then 29 else 28.

(** A rule looks at year, month and day and gives the reason of its failure,
    or [None] when it passes. *)
Definition rule : Type := Z → Z → Z → option string.

Definition format_message : string :=
  "Date must be in YYYY-MM-DD format (e.g., 2024-01-15)".

Definition month_in_range : rule := λ y m d,
  if decide (1 <= m <= 12) then None
  else Some "Month must be between 1 and 12".

Definition day_in_range : rule := λ y m d,
  if decide (1 <= d <= 31) then None
  else Some "Day must be between 1 and 31".

Definition thirty_day_limit : rule := λ y m d,
  if decide (m ∈ [4; 6; 9; 11] ∧ 30 < d)
  then Some ("Month " +:+ Py.str m +:+ " has only 30 days")
  else None.

Definition february_limit : rule := λ y m d,
  if decide (m = 2 ∧ february_days y < d)
  then Some ("February " +:+ Py.str y +:+ " has only "
             +:+ Py.str (february_days y) +:+ " days")
  else None.

Definition date_constructs : rule := λ y m d,
  match datetime.datetime y m d with
  | Raise (ValueError e) => Some ("Invalid date: " +:+ e)
  | _ => None
  end.

Definition not_in_future (now : datetime.t) : rule := λ y m d,
  match datetime.datetime y m d with
  | Return date_obj =>
      if datetime.gt date_obj now then Some "Date cannot be in the future!"
      else None
  | Raise _ => None
  end.

Definition rules (now : datetime.t) : list rule :=
  [ month_in_range; day_in_range; thirty_day_limit; february_limit;
    date_constructs; not_in_future now ].

(** The verdict of the first rule that fails. *)
Fixpoint first_failure (rs : list rule) (y m d : Z) : bool * string :=
  match rs with
  | [] => (true, "Valid date")
  | r :: rs' =>
      match r y m d with
      | Some reason => (false, reason)
      | None => first_failure rs' y m d
      end
  end.

Definition validate_by_rules (now : datetime.t) (s : string) : bool * string :=
  match fields s with
  | None => (false, format_message)
  | Some (y, m, d) => first_failure (rules now) y m d
  end.

(** *** Calendar dates *)

Definition month_length (y m : Z) : Z :=
  if decide (m ∈ [4; 6; 9; 11]) then 30
  else if decide (m = 2) then february_days y
  else 31.

(** A real calendar date, in the years the calendar of [datetime] covers. *)
Definition real_date (y m d : Z) : Prop :=
  1 <= y <= 9999 ∧ 1 <= m <= 12 ∧ 1 <= d <= month_length y m.

(** The day [y]-[m]-[d] is strictly after the day of [now]. *)
Definition after_today (now : datetime.t) (y m d : Z) : Prop :=
  datetime.year now < y
  ∨ (datetime.year now = y
     ∧ (datetime.month now < m
        ∨ (datetime.month now = m ∧ datetime.day now < d))).

(** The time of day of a clock reading is not negative. *)
Definition time_of_day_ok (now : datetime.t) : Prop :=
  0 <= datetime.hour now ∧ 0 <= datetime.minute now
  ∧ 0 <= datetime.second now ∧ 0 <= datetime.microsecond now.

(** A clock reading that [datetime] can represent, in a year of four
    digits: from the year 1000 on [strftime] writes the year in full on every
    platform. *)
Definition clock_ok (now : datetime.t) : Prop :=
  1000 <= datetime.year now
  ∧ real_date (datetime.year now) (datetime.month now) (datetime.day now)
  ∧ time_of_day_ok now.

(** The record a call stores. *)
Definition record_of (c : call) : transaction :=
  mk_transaction (call_amount c) (call_description c) (call_category c)
    (default (datetime.strftime_Ymd (call_now c)) (call_date c)).

(** A call with a date that [strptime] reads: the date is left out, in a
    year of four digits, or it is a string in YYYY-MM-DD form that writes a
    real calendar date. *)
Definition well_dated (c : call) : Prop :=
  clock_ok (call_now c)
  ∧ match call_date c with
    | None => True
    | Some s => ∃ y m d, ymd_form s = Some (y, m, d) ∧ real_date y m d
    end.

(** [zero_pad width n] has [width] digits and writes [n]. *)
Definition pad_ok (width : nat) (n : Z) : bool :=
  let s := Py.zero_pad width n in
  Nat.eqb (String.length s) width && all_digits s && (decimal s =? n).

(** The year as [strftime] writes it has four digits and no padding. *)
Definition year_ok (n : Z) : bool :=
  (n <? 1000) || String.eqb (Py.str n) (Py.zero_pad 4 n).

(** Two digits, a hyphen and four digits at the start of [s]: the two numbers
    and what follows them. *)
Definition leading_my (s : string) : option (Z * Z * string) :=
  match s with
  | String m1 (String m2 (String h (String y1 (String y2 (String y3
      (String y4 rest)))))) =>
      let month := String m1 (String m2 EmptyString) in
      let year := String y1 (String y2 (String y3 (String y4 EmptyString))) in
      if all_digits month && Ascii.eqb "-" h && all_digits year
      then Some (decimal month, decimal year, rest)
      else None
  | _ => None
  end.

(** A string in MM-YYYY form, and the month and year it writes. *)
Definition my_form (s : string) : option (Z * Z) :=
  match leading_my s with
  | Some (m, y, EmptyString) => Some (m, y)
  | _ => None
  end.

(** The month and year fields of a string that [month_pattern] admits. *)
Definition my_fields (s : string) : option (Z * Z) :=
  match leading_my s with
  | Some (m, y, rest) => if ends_ok rest then Some (m, y) else None
  | None => None
  end.

(** The verdict of one round of the month prompt. *)
Definition month_input_verdict (now : datetime.t) (s : string) : string + Z * Z :=
  match my_fields s with
  | None => inl "Please use MM-YYYY format (e.g., 01-2024)"
  | Some (m, y) =>
      if decide (1 <= m <= 12) then
        if decide (1900 <= y <= datetime.year now) then inr (m, y)
        else inl ("Year must be between 1900 and "
                  +:+ Py.str (datetime.year now))
      else inl "Month must be between 01 and 12"
  end.

(** A clock reading used in the examples: 10 March 2024, 09:30. *)
Definition clock_example : datetime.t := datetime.mk 2024 3 10 9 30 0 0.

(** * Properties *)

(** ** Comprehensions and sums *)

Section Comprehensions.
Context {A B : Type} (f : A → B) (cond : A → bool).

Lemma fold_comp_acc (xs : list A) (acc : list B) :
  fold_left (fun acc x => if cond x then acc ++ [f x] else acc) xs acc
  = acc ++ (f <$> List.filter cond xs).
Proof.
  revert acc. induction xs as [|x xs IH]; intros acc; simpl.
  - by rewrite app_nil_r.
  - rewrite IH. destruct (cond x); simpl; [|done].
    by rewrite <- app_assoc.
Qed.

Lemma list_comp_filter_bool (xs : list A) :
  Py.list_comp f cond xs = f <$> List.filter cond xs.
Proof. unfold Py.list_comp. by rewrite fold_comp_acc. Qed.

Lemma list_comp_filter (P : A → Prop) `{!∀ x, Decision (P x)} (xs : list A) :
  (∀ x, cond x = true ↔ P x) →
  Py.list_comp f cond xs = f <$> filter P xs.
Proof.
  intros Hc. rewrite list_comp_filter_bool. f_equal.
  induction xs as [|x xs IH]; [done|]. simpl.
  rewrite filter_cons. destruct (cond x) eqn:E.
  - rewrite decide_True by (by apply Hc). by rewrite IH.
  - rewrite decide_False; [done|]. rewrite <- Hc. congruence.
Qed.
End Comprehensions.

Lemma total_income_spec (ts : list transaction) :
  BudgetTracker.total_income ts = Py.sum (income_amounts ts).
Proof.
  unfold BudgetTracker.total_income, income_amounts. f_equal.
  apply list_comp_filter. intros t. apply Z.ltb_lt.
Qed.

Lemma total_expenses_spec (ts : list transaction) :
  BudgetTracker.total_expenses ts = Py.sum (expense_amounts ts).
Proof.
  unfold BudgetTracker.total_expenses, expense_amounts. f_equal.
  apply list_comp_filter. intros t. apply Z.ltb_lt.
Qed.

Lemma fold_add_nonneg (xs : list Z) (a : Z) :
  Forall (λ x, 0 <= x) xs → 0 <= a → 0 <= fold_left Z.add xs a.
Proof.
  intros Hxs. revert a. induction Hxs as [|x xs Hx _ IH]; intros a Ha; simpl;
    [done|]. apply IH. lia.
Qed.

Lemma fold_add_nonpos (xs : list Z) (a : Z) :
  Forall (λ x, x <= 0) xs → a <= 0 → fold_left Z.add xs a <= 0.
Proof.
  intros Hxs. revert a. induction Hxs as [|x xs Hx _ IH]; intros a Ha; simpl;
    [done|]. apply IH. lia.
Qed.

Lemma total_income_nonneg (ts : list transaction) :
  0 <= Py.sum (income_amounts ts).
Proof.
  apply fold_add_nonneg; [|done]. unfold income_amounts.
  apply Forall_fmap, Forall_forall. intros t [Ht _]%list_elem_of_filter.
  simpl. lia.
Qed.

Lemma total_expenses_nonpos (ts : list transaction) :
  Py.sum (expense_amounts ts) <= 0.
Proof.
  apply fold_add_nonpos; [|done]. unfold expense_amounts.
  apply Forall_fmap, Forall_forall. intros t [Ht _]%list_elem_of_filter.
  simpl. lia.
Qed.

(** ** Conversion to float *)

(** The rounded value leaves the range of binary64 exactly from
    [2^1024 - 2^970] on, the midpoint between the largest binary64 value and
    [2^1024]. *)
Lemma nearest_float_overflow (a : Z) :
  0 <= a → 2 ^ 1024 <= Py.nearest_float a ↔ 2 ^ 1024 - 2 ^ 970 <= a.
Proof.
  intros Ha. unfold Py.nearest_float.
  destruct (Z.leb_spec (Z.log2 a - 52) 0) as [Hs|Hs].
  { assert (a < 2 ^ 53) as Hlt.
    { destruct (Z.eq_dec a 0) as [->|]; [done|].
      apply Z.log2_lt_pow2; lia. }
    assert (2 ^ 53 < 2 ^ 1024 - 2 ^ 970) by (vm_compute; done).
    assert (2 ^ 53 < 2 ^ 1024) by (vm_compute; done).
    lia. }
  assert (0 < a) as Hpos by (destruct (Z.eq_dec a 0) as [->|]; [done|lia]).
  pose proof (Z.log2_spec a Hpos) as [Hlo Hhi].
  set (e := Z.log2 a) in *. set (shift := e - 52) in *.
  assert (2 ^ e = 2 ^ 52 * 2 ^ shift) as He.
  { rewrite <- Z.pow_add_r by lia. f_equal. lia. }
  assert (2 ^ Z.succ e = 2 ^ 53 * 2 ^ shift) as He'.
  { rewrite <- Z.pow_add_r by lia. f_equal. lia. }
  assert (2 ^ shift = 2 * 2 ^ (shift - 1)) as Hhalf.
  { rewrite <- Z.pow_succ_r by lia. f_equal. lia. }
  assert (0 < 2 ^ (shift - 1)) as Hp by (apply Z.pow_pos_nonneg; lia).
  pose proof (Z.div_mod a (2 ^ shift) ltac:(lia)) as Hdm.
  pose proof (Z.mod_pos_bound a (2 ^ shift) ltac:(lia)) as Hr.
  set (q := a / 2 ^ shift) in *. set (r := a mod 2 ^ shift) in *.
  set (P := 2 ^ shift) in *. set (h := 2 ^ (shift - 1)) in *.
  assert (2 ^ 52 <= q < 2 ^ 53) as Hq by nia.
  set (q' := if (h <? r) || ((r =? h) && Z.odd q) then q + 1 else q).
  assert (q <= q' <= q + 1) as Hq' by (subst q'; case_match; lia).
  destruct (Z.lt_trichotomy e 1023) as [Hlt|[Heq|Hgt]].
  - (* below the last binade *)
    assert (2 ^ Z.succ e <= 2 ^ 1023) by (apply Z.pow_le_mono_r; lia).
    assert (2 ^ 1023 < 2 ^ 1024 - 2 ^ 970) by (vm_compute; done).
    assert (2 ^ 1023 < 2 ^ 1024) by (vm_compute; done).
    assert (q' * P <= 2 ^ 53 * P) by nia.
    lia.
  - (* the last binade: only the largest significand can round up to 2^1024 *)
    assert (shift = 971) as Hsh by lia.
    assert (P = 2 ^ 971) as HP by (subst P; by rewrite Hsh).
    assert (h = 2 ^ 970) as Hh by (subst h; by rewrite Hsh).
    assert (2 ^ 1024 = 2 ^ 53 * 2 ^ 971) as H1024 by (vm_compute; done).
    assert (2 ^ 971 = 2 * 2 ^ 970) as H971 by (vm_compute; done).
    destruct (Z.eq_dec q (2 ^ 53 - 1)) as [Hmax|Hnot].
    + assert (Z.odd q = true) as Hodd by (rewrite Hmax; by vm_compute).
      subst q'. rewrite Hodd, andb_true_r.
      destruct (Z.ltb_spec h r), (Z.eqb_spec r h); cbn [orb]; nia.
    + assert (q' * P < 2 ^ 53 * P) by nia. nia.
  - assert (2 ^ 1024 <= 2 ^ e) by (apply Z.pow_le_mono_r; lia).
    assert (0 < 2 ^ 970) by (vm_compute; done).
    assert (2 ^ 52 * P <= q' * P) by nia.
    lia.
Qed.

Lemma float_spec (n : Z) :
  Py.float n
  = if decide (float_convertible n)
    then Return (Z.sgn n * Py.nearest_float (Z.abs n))
    else Raise (OverflowError "int too large to convert to float").
Proof.
  unfold Py.float, float_convertible.
  pose proof (nearest_float_overflow (Z.abs n) (Z.abs_nonneg n)) as H.
  destruct (Z.leb_spec (2 ^ 1024) (Py.nearest_float (Z.abs n)));
    case_decide; (done || lia).
Qed.

Lemma format_2f_spec (n : Z) :
  Py.format_2f n
  = if decide (float_convertible n)
    then Return (Py.str (Z.sgn n * Py.nearest_float (Z.abs n)) +:+ ".00")
    else Raise (OverflowError "int too large to convert to float").
Proof. unfold Py.format_2f. rewrite float_spec. by case_decide. Qed.

(** The conversion at its limits: the largest [int] that converts is
    [2^1024 - 2^970 - 1], which gives the largest binary64 value; [2^53 + 1]
    is already rounded. *)
Lemma float_examples :
  Py.float (2 ^ 1024 - 2 ^ 970 - 1) = Return (2 ^ 1024 - 2 ^ 971)
  ∧ Py.float (2 ^ 1024 - 2 ^ 970)
    = Raise (OverflowError "int too large to convert to float")
  ∧ Py.format_2f (2 ^ 53 + 1) = Return "9007199254740992.00"
  ∧ Py.format_2f (-50) = Return "-50.00"
  ∧ Py.format_8_2f (-50) = Return "  -50.00".
Proof. by vm_compute. Qed.

Lemma float_convertible_opp (n : Z) :
  float_convertible (- n) ↔ float_convertible n.
Proof. unfold float_convertible. by rewrite Z.abs_opp. Qed.

(** The three figures of a summary are formatted when the two totals are. *)
Lemma format_summary (income expenses : Z) :
  0 <= income → expenses <= 0 →
  (_ ← Py.format_2f income;
   _ ← Py.format_2f (- expenses);
   _ ← Py.format_2f (income + expenses);
   Return tt)
  = if decide (float_convertible income ∧ float_convertible expenses)
    then Return tt
    else Raise (OverflowError "int too large to convert to float").
Proof.
  intros Hi He. rewrite !format_2f_spec.
  destruct (decide (float_convertible income)) as [Hci|Hci]; simpl.
  - destruct (decide (float_convertible (- expenses))) as [Hce|Hce]; simpl.
    + pose proof (proj1 (float_convertible_opp expenses) Hce) as Hce'.
      rewrite (decide_True (P := _ ∧ _)) by done.
      rewrite (decide_True (P := float_convertible (income + expenses)));
        [done|].
      unfold float_convertible in *. lia.
    + rewrite (decide_False (P := _ ∧ _)); [done|].
      intros [_ ?]. by apply Hce, float_convertible_opp.
  - rewrite (decide_False (P := _ ∧ _)); [done | tauto].
Qed.

(** ** Balance *)

Lemma get_balance_spec (self : BudgetTracker.t) :
  let total_income := Py.sum (income_amounts (BudgetTracker.transactions self)) in
  let total_expenses :=
    Py.sum (expense_amounts (BudgetTracker.transactions self)) in
  BudgetTracker.get_balance self
  = if decide (float_convertible total_income
               ∧ float_convertible total_expenses)
    then Return (total_income + total_expenses)
    else Raise (OverflowError "int too large to convert to float").
Proof.
  intros total_income total_expenses. unfold BudgetTracker.get_balance.
  rewrite total_income_spec, total_expenses_spec.
  fold total_income total_expenses.
  pose proof (total_income_nonneg (BudgetTracker.transactions self)) as Hi.
  pose proof (total_expenses_nonpos (BudgetTracker.transactions self)) as He.
  fold total_income in Hi. fold total_expenses in He.
  rewrite !format_2f_spec, float_spec.
  destruct (decide (float_convertible total_income)) as [Hci|Hci].
  2: { rewrite (decide_False (P := _ ∧ _)) by tauto. done. }
  destruct (decide (float_convertible (- total_expenses))) as [Hce|Hce].
  2: { rewrite (decide_False (P := _ ∧ _)); [done|].
       intros [_ ?]. by apply Hce, float_convertible_opp. }
  pose proof (proj1 (float_convertible_opp _) Hce) as Hce'.
  rewrite (decide_True (P := float_convertible (total_income + total_expenses)))
    by (unfold float_convertible in *; lia).
  rewrite (decide_True (P := _ ∧ _)) by done.
  simpl. by destruct (_ <? 0).
Qed.

(** C1, as stated, fails for a store whose income total is an [int] beyond
    the range of floats: both calls of [add_transaction(10**308, ...)] print
    their line, and [get_balance] then raises [OverflowError] while it prints
    the summary, before it returns. *)
Lemma get_balance_raises_beyond_float_range :
  let first :=
    BudgetTracker.add_transaction clock_example BudgetTracker.init
      (10 ^ 308) "Bonus" "Income" None in
  let second :=
    BudgetTracker.add_transaction clock_example first.1
      (10 ^ 308) "Bonus" "Income" None in
  returns first.2 = true
  ∧ returns second.2 = true
  ∧ Py.sum (income_amounts (BudgetTracker.transactions second.1)) = 2 * 10 ^ 308
  ∧ Py.sum (expense_amounts (BudgetTracker.transactions second.1)) = 0
  ∧ BudgetTracker.get_balance second.1
    = Raise (OverflowError "int too large to convert to float").
Proof. by vm_compute. Qed.

(** C1 (amended): for every store state whose income total and expense total
    can be converted to float (an [int] of magnitude below [2^1024 - 2^970]),
    [get_balance] returns the sum of the amounts strictly greater than 0 plus
    the sum of the amounts strictly less than 0, each added up in the order
    of the store; for any other store state it raises [OverflowError] while
    it prints the summary. After [add_transaction(100, "Salary", "Income")]
    and [add_transaction(-50, "Rent", "Housing")] on a fresh store it returns
    50, whatever the clock reads at the two calls. *)
Theorem get_balance_income_plus_expenses :
  (∀ self : BudgetTracker.t,
     let total_income :=
       Py.sum (income_amounts (BudgetTracker.transactions self)) in
     let total_expenses :=
       Py.sum (expense_amounts (BudgetTracker.transactions self)) in
     BudgetTracker.get_balance self
     = if decide (float_convertible total_income
                  ∧ float_convertible total_expenses)
       then Return (total_income + total_expenses)
       else Raise (OverflowError "int too large to convert to float"))
  ∧ (∀ now now' : datetime.t,
       BudgetTracker.get_balance
         (BudgetTracker.add_transaction now'
            (BudgetTracker.add_transaction now BudgetTracker.init
               100 "Salary" "Income" None).1
            (-50) "Rent" "Housing" None).1 = Return 50).
Proof.
  split; [apply get_balance_spec|].
  intros now now'. by vm_compute.
Qed.

(** ** The income and expense lists *)

Lemma income_transactions_filter (ts : list transaction) :
  (BudgetTracker.partition_income_expense ts).1 = filter (λ t, 0 < amount t) ts.
Proof.
  simpl. rewrite (list_comp_filter _ _ (λ t, 0 < amount t)).
  - apply list_fmap_id.
  - intros t. apply Z.ltb_lt.
Qed.

Lemma expense_transactions_filter (ts : list transaction) :
  (BudgetTracker.partition_income_expense ts).2 = filter (λ t, amount t < 0) ts.
Proof.
  simpl. rewrite (list_comp_filter _ _ (λ t, amount t < 0)).
  - apply list_fmap_id.
  - intros t. apply Z.ltb_lt.
Qed.

Lemma list_elem_of_filter_iff (P : transaction → Prop) `{!∀ x, Decision (P x)}
    (ts : list transaction) (t : transaction) :
  t ∈ filter P ts ↔ t ∈ ts ∧ P t.
Proof. rewrite list_elem_of_filter. tauto. Qed.

(** C9: for every sequence of transactions the income list holds exactly the
    transactions with amount > 0 and the expense list exactly those with
    amount < 0, each in the original order (they are the corresponding
    filters of the sequence, hence subsequences of it), and a transaction with
    amount 0 is in neither list. *)
Theorem partition_income_expense_exact (ts : list transaction) :
  let income_list := (BudgetTracker.partition_income_expense ts).1 in
  let expense_list := (BudgetTracker.partition_income_expense ts).2 in
  income_list = filter (λ t, 0 < amount t) ts
  ∧ expense_list = filter (λ t, amount t < 0) ts
  ∧ income_list `sublist_of` ts
  ∧ expense_list `sublist_of` ts
  ∧ (∀ t, t ∈ income_list ↔ t ∈ ts ∧ 0 < amount t)
  ∧ (∀ t, t ∈ expense_list ↔ t ∈ ts ∧ amount t < 0)
  ∧ (∀ t, amount t = 0 → (t ∉ income_list) ∧ (t ∉ expense_list)).
Proof.
  intros income_list expense_list. subst income_list expense_list.
  rewrite income_transactions_filter, expense_transactions_filter.
  split; [done|]. split; [done|].
  split; [apply sublist_filter|]. split; [apply sublist_filter|].
  split; [intros t; apply list_elem_of_filter_iff|].
  split; [intros t; apply list_elem_of_filter_iff|].
  intros t Hz. rewrite !list_elem_of_filter. lia.
Qed.

(** [view_transactions] shows these two lists whenever the store is not
    empty. *)
Lemma view_transactions_shows_partition (self : BudgetTracker.t) :
  BudgetTracker.view_transactions self
  = match BudgetTracker.transactions self with
    | [] => inl "No transactions recorded yet!"
    | ts => inr (filter (λ t, 0 < amount t) ts, filter (λ t, amount t < 0) ts)
    end.
Proof.
  unfold BudgetTracker.view_transactions.
  destruct (BudgetTracker.transactions self) as [|t ts] eqn:E; [done|].
  f_equal. rewrite <- income_transactions_filter, <- expense_transactions_filter.
  by destruct (BudgetTracker.partition_income_expense (t :: ts)).
Qed.

(** ** The store invariant *)

Lemma run_snoc (calls : list call) (c : call) :
  run (calls ++ [c]) = apply_call (run calls) c.
Proof. unfold run. by rewrite fold_left_app. Qed.

Lemma apply_call_transactions (self : BudgetTracker.t) (c : call) :
  ∃ t, BudgetTracker.transactions (apply_call self c)
       = BudgetTracker.transactions self ++ [t]
       ∧ amount t = call_amount c
       ∧ description t = call_description c
       ∧ category t = call_category c.
Proof. unfold apply_call. simpl. eauto. Qed.

Lemma apply_call_categories (self : BudgetTracker.t) (c : call) :
  BudgetTracker.categories (apply_call self c)
  = BudgetTracker.categories self ∪ {[call_category c]}.
Proof. done. Qed.

Lemma run_categories (calls : list call) :
  BudgetTracker.categories (run calls)
  = list_to_set (category <$> BudgetTracker.transactions (run calls)).
Proof.
  induction calls as [|c calls IH] using rev_ind; [done|].
  rewrite run_snoc, apply_call_categories, IH.
  destruct (apply_call_transactions (run calls) c) as (t & -> & _ & _ & <-).
  rewrite fmap_app, list_to_set_app_L. simpl.
  by rewrite (right_id_L ∅ (∪)).
Qed.

Lemma run_prefix (calls calls' : list call) :
  BudgetTracker.transactions (run calls)
  `prefix_of` BudgetTracker.transactions (run (calls ++ calls')).
Proof.
  induction calls' as [|c calls' IH] using rev_ind.
  - by rewrite app_nil_r.
  - rewrite app_assoc, run_snoc.
    destruct (apply_call_transactions (run (calls ++ calls')) c) as (t & -> & _).
    by apply prefix_app_r.
Qed.

Lemma run_length (calls : list call) :
  length (BudgetTracker.transactions (run calls)) = length calls.
Proof.
  induction calls as [|c calls IH] using rev_ind; [done|].
  rewrite run_snoc.
  destruct (apply_call_transactions (run calls) c) as (t & -> & _).
  rewrite !length_app, IH. done.
Qed.

(** C10: starting from the empty store, after any sequence of
    [add_transaction] calls the category set is exactly the set of the
    categories of the stored transactions; one more call appends exactly one
    record, built from its arguments, at the end; and whatever calls follow,
    every record stored so far keeps its position and its value. *)
Theorem store_append_only_invariant (calls : list call) :
  let self := run calls in
  BudgetTracker.categories self
  = list_to_set (category <$> BudgetTracker.transactions self)
  ∧ length (BudgetTracker.transactions self) = length calls
  ∧ (∀ c : call,
       ∃ t, BudgetTracker.transactions (apply_call self c)
            = BudgetTracker.transactions self ++ [t]
            ∧ amount t = call_amount c
            ∧ description t = call_description c
            ∧ category t = call_category c)
  ∧ (∀ calls' : list call,
       BudgetTracker.transactions self
       `prefix_of` BudgetTracker.transactions (run (calls ++ calls')))
  ∧ (∀ (calls' : list call) (i : nat) (t : transaction),
       BudgetTracker.transactions self !! i = Some t →
       BudgetTracker.transactions (run (calls ++ calls')) !! i = Some t).
Proof.
  intros self. subst self. split; [apply run_categories|].
  split; [apply run_length|].
  split; [apply apply_call_transactions|].
  split; [apply run_prefix|].
  intros calls' i t Hi.
  by eapply prefix_lookup_Some; [|apply run_prefix].
Qed.

(** ** The date of a stored transaction *)

Lemma stored_date_eq (now : datetime.t) (self : BudgetTracker.t) (a : Z)
    (d c : string) (dt : option string) :
  stored_date now self a d c dt
  = Some (default (datetime.strftime_Ymd now) dt).
Proof.
  unfold stored_date. simpl. rewrite last_snoc. by destruct dt.
Qed.

(** C7, as stated, fails for an empty date string: the empty string is
    stored, not the current date. *)
Lemma empty_date_is_stored_unchanged :
  stored_date clock_example BudgetTracker.init 20 "Gift" "Income" (Some "")
  = Some ""
  ∧ stored_date clock_example BudgetTracker.init 20 "Gift" "Income" (Some "")
    ≠ Some (datetime.strftime_Ymd clock_example).
Proof. split; [reflexivity | discriminate]. Qed.

(** C7 (amended): when the date argument is absent ([None]) the stored date is
    the current date formatted as YYYY-MM-DD; when a string is supplied, the
    empty string included, the stored date is that string unchanged. *)
Theorem add_transaction_date_default :
  (∀ (now : datetime.t) (self : BudgetTracker.t) (a : Z) (d c : string),
     stored_date now self a d c None = Some (datetime.strftime_Ymd now))
  ∧ (∀ (now : datetime.t) (self : BudgetTracker.t) (a : Z) (d c dt : string),
       stored_date now self a d c (Some dt) = Some dt).
Proof. split; intros; apply stored_date_eq. Qed.

(** ** Spending by category *)

Lemma accumulate_eq (acc : gmap string Z) (t : transaction) :
  BudgetTracker.accumulate acc t
  = Return (if amount t <? 0
            then <[category t := default 0 (acc !! category t)
                                 + Z.abs (amount t)]> acc
            else acc).
Proof.
  unfold BudgetTracker.accumulate, BudgetTracker.getitem.
  destruct (amount t <? 0); [|done].
  case_bool_decide as Hdom; simpl.
  - apply elem_of_dom in Hdom as [v Hv]. by rewrite Hv.
  - apply not_elem_of_dom in Hdom. rewrite Hdom, lookup_insert_eq. simpl.
    by rewrite insert_insert_eq.
Qed.

Lemma expenses_of_cons (c : string) (t : transaction) (ts : list transaction) :
  expenses_of c (t :: ts)
  = if decide (category t = c ∧ amount t < 0)
    then Z.abs (amount t) :: expenses_of c ts
    else expenses_of c ts.
Proof. unfold expenses_of. rewrite filter_cons. by case_decide. Qed.

Lemma for_each_accumulate (ts : list transaction) (acc : gmap string Z) :
  ∃ m, for_each BudgetTracker.accumulate ts acc = Return m
       ∧ ∀ c, m !! c
              = if decide (expenses_of c ts = []) then acc !! c
                else Some (default 0 (acc !! c) + sum_list (expenses_of c ts)).
Proof.
  revert acc. induction ts as [|t ts IH]; intros acc.
  - exists acc. split; [done|]. intros c. by rewrite decide_True.
  - simpl. rewrite accumulate_eq. simpl.
    destruct (IH (if amount t <? 0
                  then <[category t := default 0 (acc !! category t)
                                       + Z.abs (amount t)]> acc
                  else acc)) as (m & Hm & Hlook).
    exists m. split; [done|]. intros c. rewrite Hlook, expenses_of_cons.
    destruct (Z.ltb_spec (amount t) 0) as [Hneg|Hge].
    + destruct (decide (category t = c)) as [->|Hne].
      * rewrite lookup_insert_eq, (decide_True (P := _ ∧ _)) by done.
        rewrite (decide_False (P := _ :: _ = [])) by done.
        case_decide as He; simpl.
        -- rewrite He. unfold sum_list. simpl. f_equal. lia.
        -- f_equal. unfold sum_list. simpl. lia.
      * rewrite lookup_insert_ne by done.
        rewrite (decide_False (P := _ ∧ _)) by tauto. done.
    + rewrite (decide_False (P := _ ∧ _)) by lia. done.
Qed.


Lemma expenses_of_nonempty (c : string) (ts : list transaction) :
  expenses_of c ts ≠ [] ↔ ∃ t, t ∈ ts ∧ category t = c ∧ amount t < 0.
Proof.
  unfold expenses_of. split.
  - intros Hne.
    destruct (filter (λ t, category t = c ∧ amount t < 0) ts) as [|t l] eqn:E;
      [done|].
    assert (t ∈ filter (λ t, category t = c ∧ amount t < 0) ts) as Hin
      by (rewrite E; left).
    apply list_elem_of_filter in Hin. exists t. tauto.
  - intros (t & Hin & Hc & Hneg) Hnil.
    apply fmap_nil_inv in Hnil.
    assert (t ∈ filter (λ t, category t = c ∧ amount t < 0) ts) as Hin'
      by (by apply list_elem_of_filter).
    rewrite Hnil in Hin'. by apply not_elem_of_nil in Hin'.
Qed.


Lemma category_totals_spec (ts : list transaction) :
  ∃ m, BudgetTracker.category_totals ts = Return m
       ∧ ∀ c, m !! c
              = if decide (expenses_of c ts = []) then None
                else Some (sum_list (expenses_of c ts)).
Proof.
  destruct (for_each_accumulate ts ∅) as (m & Hm & Hlook).
  exists m. split; [done|]. intros c. rewrite Hlook, lookup_empty.
  case_decide; done.
Qed.




(** After the two calls of the example the mapping is [{"Housing": 50}]. *)
Lemma spending_by_category_example (now now' : datetime.t) :
  BudgetTracker.spending_by_category
    (BudgetTracker.add_transaction now'
       (BudgetTracker.add_transaction now BudgetTracker.init
          100 "Salary" "Income" None).1
       (-50) "Rent" "Housing" None).1
  = Return (inr {[ "Housing" := 50 ]}).
Proof.
  unfold BudgetTracker.spending_by_category. simpl.
  unfold BudgetTracker.category_totals. simpl. rewrite !accumulate_eq. simpl.
  rewrite lookup_empty. simpl. done.
Qed.

(** ** Queries on an empty store *)

(** C3, as stated, fails for [spending_by_category]: on the empty store it
    prints its notice and does not produce the empty mapping; the month view
    likewise stops at its notice before any sequence is built. *)
Lemma spending_by_category_empty_store_not_empty_mapping :
  BudgetTracker.spending_by_category BudgetTracker.init
  = Return (inl "No transactions to analyze!")
  ∧ BudgetTracker.spending_by_category BudgetTracker.init ≠ Return (inr ∅)
  ∧ view_transactions_by_month BudgetTracker.init 1 2024
    = Return NoTransactionsRecorded.
Proof. split; [reflexivity|]. split; [discriminate|reflexivity]. Qed.

(** C3 (amended): on a store with no transactions no query fails.
    [get_balance] returns 0; [spending_by_category] and the month view take
    their empty-store guard, print a notice and produce no mapping and no
    sequence; the loops behind them, run on the empty sequence, give the empty
    mapping and the empty sequence. *)
Theorem empty_store_queries (known : gset string) :
  let self := BudgetTracker.mk [] known in
  BudgetTracker.get_balance self = Return 0
  ∧ BudgetTracker.spending_by_category self
    = Return (inl "No transactions to analyze!")
  ∧ BudgetTracker.view_transactions self = inl "No transactions recorded yet!"
  ∧ (∀ m y : Z, view_transactions_by_month self m y
                = Return NoTransactionsRecorded)
  ∧ BudgetTracker.category_totals (BudgetTracker.transactions self) = Return ∅
  ∧ (∀ m y : Z, month_transactions m y (BudgetTracker.transactions self)
                = Return []).
Proof. repeat split. Qed.

(** ** The month filter *)

Lemma month_step_parses (m y : Z) (acc : list transaction) (t : transaction) :
  date_parses t →
  month_step m y acc t
  = Return (if parses_to m y t then acc ++ [t] else acc).
Proof.
  intros [dt Hdt]. unfold month_step, parses_to. rewrite Hdt. simpl.
  by destruct (_ && _).
Qed.

Lemma for_each_month_step (m y : Z) (ts acc : list transaction) :
  Forall date_parses ts →
  for_each (month_step m y) ts acc
  = Return (acc ++ List.filter (parses_to m y) ts).
Proof.
  intros Hall. revert acc.
  induction Hall as [|t ts Ht _ IH]; intros acc; simpl.
  - by rewrite app_nil_r.
  - rewrite month_step_parses by done. simpl. rewrite IH.
    destruct (parses_to m y t); [|done]. by rewrite <- app_assoc.
Qed.

(** The loop stops with the exception of the first date that does not
    parse. *)
Lemma month_transactions_raises (m y : Z) (ts ts' : list transaction)
    (t : transaction) (e : exn) :
  Forall date_parses ts →
  datetime.strptime_Ymd (date t) = Raise e →
  month_transactions m y (ts ++ t :: ts') = Raise e.
Proof.
  intros Hall He. unfold month_transactions. generalize (@nil transaction).
  induction Hall as [|t0 ts Ht _ IH]; intros acc; simpl.
  - unfold month_step. by rewrite He.
  - rewrite month_step_parses by done. simpl. apply IH.
Qed.

(** C8, as stated, fails when a stored date does not parse: the filter raises
    instead of leaving the transaction out. *)
Lemma month_filter_raises_on_unparsable_date :
  let t := mk_transaction (-50) "Rent" "Housing" "15/01/2024" in
  month_transactions 1 2024 [t]
  = Raise (ValueError
             "time data '15/01/2024' does not match format '%Y-%m-%d'")
  ∧ month_transactions 1 2024 [t]
    ≠ Return (List.filter (parses_to 1 2024) [t]).
Proof. split; [reflexivity | discriminate]. Qed.

(** C8 (amended): for every store state in which every stored date string
    parses, and every month [m] and year [y], the month filter returns
    exactly the transactions whose date parses to month [m] of year [y], in
    their insertion order. *)
Theorem month_filter_exact (self : BudgetTracker.t) (m y : Z) :
  Forall date_parses (BudgetTracker.transactions self) →
  ∃ found : list transaction,
    month_transactions m y (BudgetTracker.transactions self) = Return found
    ∧ found = List.filter (parses_to m y) (BudgetTracker.transactions self)
    ∧ found `sublist_of` BudgetTracker.transactions self
    ∧ (∀ t, t ∈ found
            ↔ t ∈ BudgetTracker.transactions self
              ∧ ∃ dt, datetime.strptime_Ymd (date t) = Return dt
                      ∧ datetime.month dt = m ∧ datetime.year dt = y).
Proof.
  intros Hall. eexists. split; [by apply for_each_month_step|].
  simpl. split; [done|]. split.
  - induction (BudgetTracker.transactions self) as [|t ts IH]; [done|].
    simpl. destruct (parses_to m y t).
    + apply sublist_skip, IH. by inversion Hall.
    + apply sublist_cons, IH. by inversion Hall.
  - intros t. rewrite list_elem_of_In, filter_In, <- list_elem_of_In.
    unfold parses_to. split.
    + intros [Hin Hp]. split; [done|].
      destruct (datetime.strptime_Ymd (date t)) as [dt|]; [|done].
      exists dt. split; [done|]. apply andb_prop in Hp. lia.
    + intros [Hin (dt & -> & <- & <-)]. split; [done|].
      by rewrite !Z.eqb_refl.
Qed.

Lemma month_filter_exact_example :
  let self :=
    run [ mk_call clock_example 100 "Salary" "Income" None;
          mk_call clock_example (-50) "Rent" "Housing" (Some "2024-01-15");
          mk_call clock_example (-20) "Food" "Groceries" (Some "2024-03-02") ] in
  Forall date_parses (BudgetTracker.transactions self)
  ∧ ∃ found : list transaction,
      month_transactions 3 2024 (BudgetTracker.transactions self) = Return found
      ∧ found = List.filter (parses_to 3 2024) (BudgetTracker.transactions self)
      ∧ found `sublist_of` BudgetTracker.transactions self
      ∧ (∀ t, t ∈ found
              ↔ t ∈ BudgetTracker.transactions self
                ∧ ∃ dt, datetime.strptime_Ymd (date t) = Return dt
                        ∧ datetime.month dt = 3 ∧ datetime.year dt = 2024).
Proof.
  assert (Forall date_parses
            (BudgetTracker.transactions
               (run [ mk_call clock_example 100 "Salary" "Income" None;
                      mk_call clock_example (-50) "Rent" "Housing"
                        (Some "2024-01-15");
                      mk_call clock_example (-20) "Food" "Groceries"
                        (Some "2024-03-02") ]))) as Hall.
  { repeat constructor; eexists; vm_compute; reflexivity. }
  split; [exact Hall|].
  exact (month_filter_exact _ 3 2024 Hall).
Defined.

(** ** Date strings: the pattern, [split] and [int] *)

Lemma is_digit_code (c : ascii) : Py.is_digit c = true ↔ 48 <= Py.code c <= 57.
Proof. unfold Py.is_digit. rewrite andb_true_iff, !Z.leb_le. done. Qed.

Lemma digit_not_char (c c' : ascii) :
  Py.is_digit c = true → Py.is_digit c' = false → Ascii.eqb c c' = false.
Proof. intros H H'. apply Ascii.eqb_neq. intros ->. congruence. Qed.

Lemma digit_not_hyphen (c : ascii) :
  Py.is_digit c = true → Ascii.eqb c "-" = false.
Proof. intros H. by apply digit_not_char. Qed.

Lemma digit_not_plus (c : ascii) :
  Py.is_digit c = true → Ascii.eqb c "+" = false.
Proof. intros H. by apply digit_not_char. Qed.

Lemma digit_not_space (c : ascii) :
  Py.is_digit c = true → Py.is_int_space c = false.
Proof.
  rewrite is_digit_code. unfold Py.is_int_space. intros H.
  repeat (apply orb_false_intro); try apply andb_false_iff; lia.
Qed.

(** [int()] skips white space around the digits, but not the separators
    that [str.strip] removes. *)
Lemma int_examples :
  Py.int (" 15" +:+ String re.newline EmptyString) = Return 15
  ∧ Py.int (String (ascii_of_N 28) "15")
    = Raise (ValueError
               "invalid literal for int() with base 10: '\x1c15'")
  ∧ Py.strip (String (ascii_of_N 28) "15") = "15".
Proof. by vm_compute. Qed.

Lemma append_empty_r (s : string) : s +:+ EmptyString = s.
Proof.
  induction s as [|c s IH]; [done|].
  change (String c (s +:+ EmptyString) = String c s). by rewrite IH.
Qed.

Lemma digits_all_digits (s : string) (acc : Z) (after : bool) :
  all_digits s = true → s ≠ EmptyString ∨ after = true →
  Py.digits acc after s = Some (decimal_from acc s).
Proof.
  revert acc after. induction s as [|c s IH]; intros acc after Hd Hne; simpl.
  - destruct Hne as [? | ->]; done.
  - simpl in Hd. apply andb_prop in Hd as [Hc Hs]. rewrite Hc.
    apply IH; auto.
Qed.

Lemma rstrip_all_digits (s : string) :
  all_digits s = true → Py.rstrip Py.is_int_space s = s.
Proof.
  induction s as [|c s IH]; [done|]. simpl. intros Hd.
  apply andb_prop in Hd as [Hc Hs]. rewrite (IH Hs).
  destruct s; [|done]. by rewrite digit_not_space.
Qed.

Lemma rstrip_all_digits_newline (s : string) :
  all_digits s = true →
  Py.rstrip Py.is_int_space (s +:+ String re.newline EmptyString) = s.
Proof.
  induction s as [|c s IH]; [done|]. simpl. intros Hd.
  apply andb_prop in Hd as [Hc Hs]. rewrite (IH Hs).
  destruct s; [|done]. by rewrite digit_not_space.
Qed.

(** [int] reads a non-empty string of digits as its decimal value, also when
    a newline follows it. *)
Lemma int_all_digits (s tail : string) :
  all_digits s = true → s ≠ EmptyString →
  tail = EmptyString ∨ tail = String re.newline EmptyString →
  Py.int (s +:+ tail) = Return (decimal s).
Proof.
  intros Hd Hne Htail. unfold Py.int.
  assert (Py.rstrip Py.is_int_space (Py.lstrip Py.is_int_space (s +:+ tail))
          = s) as ->.
  { assert (Py.lstrip Py.is_int_space (s +:+ tail) = s +:+ tail) as ->.
    { destruct s as [|c s]; [done|]. simpl in Hd.
      apply andb_prop in Hd as [Hc _]. simpl. by rewrite digit_not_space. }
    destruct Htail as [-> | ->].
    - rewrite append_empty_r. by apply rstrip_all_digits.
    - by apply rstrip_all_digits_newline. }
  destruct s as [|c s]; [done|]. pose proof Hd as Hd'. simpl in Hd'.
  apply andb_prop in Hd' as [Hc _].
  rewrite digit_not_hyphen, digit_not_plus by done.
  rewrite digits_all_digits; auto.
Qed.

Inductive ymd_shape : string → Z → Z → Z → string → Prop :=
| ymd_shape_intro (y1 y2 y3 y4 m1 m2 d1 d2 : ascii) (rest : string) :
    Py.is_digit y1 = true → Py.is_digit y2 = true → Py.is_digit y3 = true →
    Py.is_digit y4 = true → Py.is_digit m1 = true → Py.is_digit m2 = true →
    Py.is_digit d1 = true → Py.is_digit d2 = true →
    ymd_shape
      (String y1 (String y2 (String y3 (String y4 (String "-" (String m1
         (String m2 (String "-" (String d1 (String d2 rest))))))))))
      (decimal (String y1 (String y2 (String y3 (String y4 EmptyString)))))
      (decimal (String m1 (String m2 EmptyString)))
      (decimal (String d1 (String d2 EmptyString)))
      rest.

Lemma leading_ymd_shape (s : string) (y m d : Z) (rest : string) :
  leading_ymd s = Some (y, m, d, rest) ↔ ymd_shape s y m d rest.
Proof.
  split.
  - unfold leading_ymd.
    do 10 (destruct s as [|? s]; [done|]).
    destruct (_ && _) eqn:Hshape; [|done]. intros [= <- <- <- <-].
    cbn [all_digits] in Hshape.
    repeat match goal with
           | H : _ && _ = true |- _ => apply andb_prop in H as [? ?]
           | H : Ascii.eqb _ _ = true |- _ => apply Ascii.eqb_eq in H; subst
           end.
    by constructor.
  - intros []. unfold leading_ymd. cbn [all_digits].
    repeat match goal with
           | H : Py.is_digit _ = true |- _ => rewrite H; clear H
           end.
    by rewrite !Ascii.eqb_refl.
Qed.

Lemma ends_ok_cases (rest : string) :
  ends_ok rest = true →
  rest = EmptyString ∨ rest = String re.newline EmptyString.
Proof.
  destruct rest as [|c [|]]; [by left| |done]. right.
  simpl in H. apply Ascii.eqb_eq in H. by subst.
Qed.

Lemma fields_shape (s : string) (y m d : Z) :
  fields s = Some (y, m, d) ↔ ∃ rest, ymd_shape s y m d rest ∧ ends_ok rest = true.
Proof.
  unfold fields. split.
  - destruct (leading_ymd s) as [[[[y' m'] d'] rest]|] eqn:E; [|done].
    destruct (ends_ok rest) eqn:Hend; [|done]. intros [= -> -> ->].
    exists rest. by rewrite <- leading_ymd_shape.
  - intros (rest & Hs & Hend). apply leading_ymd_shape in Hs.
    by rewrite Hs, Hend.
Qed.

Lemma ymd_form_fields (s : string) (y m d : Z) :
  ymd_form s = Some (y, m, d) → fields s = Some (y, m, d).
Proof.
  unfold ymd_form, fields.
  destruct (leading_ymd s) as [[[[y' m'] d'] [|]]|]; done.
Qed.

Lemma fields_bounds (s : string) (y m d : Z) :
  fields s = Some (y, m, d) → 0 <= y <= 9999 ∧ 0 <= m <= 99 ∧ 0 <= d <= 99.
Proof.
  intros (rest & Hs & _)%fields_shape. destruct Hs.
  repeat match goal with
         | H : Py.is_digit _ = true |- _ => apply is_digit_code in H
         end.
  unfold decimal; cbn [decimal_from]; unfold Py.digit_val. lia.
Qed.

(** The pattern admits exactly the strings that have the three fields. *)
Lemma match_date_pattern (s : string) :
  Py.truthy (re.match_ date_pattern s) = Py.truthy (fields s).
Proof.
  unfold re.match_, date_pattern, fields, leading_ymd.
  do 10 (destruct s as [|? s];
         [by cbn [re.seq re.times re.run re.lit re.digit Nat.eqb Py.truthy];
             repeat case_match|]).
  cbn [re.seq re.times re.run re.lit re.digit Nat.eqb all_digits andb].
  repeat match goal with
         | |- context [Py.is_digit ?c] =>
             destruct (Py.is_digit c); cbn [andb]; [|done]
         | |- context [Ascii.eqb "-" ?c] =>
             destruct (Ascii.eqb "-" c); cbn [andb]; [|done]
         end.
  destruct s as [|c [|]]; cbn [ends_ok]; [done| |done].
  by destruct (Ascii.eqb c re.newline).
Qed.

Lemma split_digit (c : ascii) (s : string) :
  Py.is_digit c = true →
  Py.split "-" (String c s)
  = match Py.split "-" s with
    | p :: ps => String c p :: ps
    | [] => [String c EmptyString]
    end.
Proof. intros H. simpl. by rewrite digit_not_hyphen. Qed.

Lemma split_hyphen (s : string) :
  Py.split "-" (String "-" s) = EmptyString :: Py.split "-" s.
Proof. done. Qed.

(** On a string that the pattern admits, [split] and [int] neither raise nor
    disagree with the three fields. *)
Lemma parse_fields (s : string) (y m d : Z) :
  fields s = Some (y, m, d) →
  Py.unpack3 Py.int (Py.split "-" s) = Return (y, m, d).
Proof.
  intros (rest & Hs & Hend)%fields_shape.
  destruct Hs as [y1 y2 y3 y4 m1 m2 d1 d2 rest Hy1 Hy2 Hy3 Hy4 Hm1 Hm2 Hd1 Hd2].
  apply ends_ok_cases in Hend as Hrest.
  assert (Py.split "-" rest = [rest]) as Hsplit
    by (by destruct Hrest as [-> | ->]).
  rewrite !split_digit, split_hyphen, !split_digit, split_hyphen,
    !split_digit, Hsplit by done.
  unfold Py.unpack3.
  rewrite <- (append_empty_r (String y1 _)), <- (append_empty_r (String m1 _)).
  change (String d1 (String d2 rest))
    with (String d1 (String d2 EmptyString) +:+ rest).
  rewrite !int_all_digits; cbn [all_digits];
    rewrite ?Hy1, ?Hy2, ?Hy3, ?Hy4, ?Hm1, ?Hm2, ?Hd1, ?Hd2; auto.
Qed.

(** ** [validate_date] against the ordered rules *)

Lemma leap_test (y : Z) :
  ((y mod 4 =? 0) && negb (y mod 100 =? 0)) || (y mod 400 =? 0)
  = bool_decide (leap_year y).
Proof.
  unfold leap_year.
  destruct (Z.eqb_spec (y mod 4) 0), (Z.eqb_spec (y mod 100) 0),
    (Z.eqb_spec (y mod 400) 0); simpl; symmetry;
    (apply bool_decide_eq_true_2 || apply bool_decide_eq_false_2); tauto.
Qed.

Lemma max_days_february (y : Z) :
  (if ((y mod 4 =? 0) && negb (y mod 100 =? 0)) || (y mod 400 =? 0)
   then 29 else 28) = february_days y.
Proof. rewrite leap_test. unfold february_days. by case_bool_decide; case_decide. Qed.

Lemma datetime_no_KeyError (y m d : Z) (k : string) :
  datetime.datetime y m d ≠ Raise (KeyError k).
Proof. unfold datetime.datetime. by repeat case_match. Qed.

Lemma datetime_no_OverflowError (y m d : Z) (o : string) :
  datetime.datetime y m d ≠ Raise (OverflowError o).
Proof. unfold datetime.datetime. by repeat case_match. Qed.

Lemma elem_of_months_with_30_days (m : Z) :
  m ∈ months_with_30_days ↔ m = 4 ∨ m = 6 ∨ m = 9 ∨ m = 11.
Proof.
  unfold months_with_30_days. rewrite !elem_of_cons, elem_of_nil. tauto.
Qed.

(** [validate_date] returns the verdict of the first rule that fails, or
    success when none does. *)
Lemma validate_date_by_rules (now : datetime.t) (s : string) :
  validate_date now s = Return (validate_by_rules now s).
Proof.
  unfold validate_date, validate_date_body, validate_by_rules.
  rewrite match_date_pattern.
  destruct (fields s) as [[[y m] d]|] eqn:E; cbn [Py.truthy negb]; [|done].
  rewrite (parse_fields _ _ _ _ E).
  unfold mbind, result_bind, bind, rules, first_failure.
  unfold month_in_range. 
  destruct (Z.ltb_spec m 1), (Z.ltb_spec 12 m); cbn [orb try_except];
    case_decide; try lia; try done.
  unfold day_in_range.
  destruct (Z.ltb_spec d 1), (Z.ltb_spec 31 d); cbn [orb try_except];
    case_decide; try lia; try done.
  unfold thirty_day_limit. fold months_with_30_days.
  case_bool_decide as H30; destruct (Z.ltb_spec 30 d); cbn [andb try_except];
    case_decide; try tauto; try lia; try done.
  all: unfold february_limit; rewrite max_days_february;
    destruct (Z.eqb_spec m 2); 
    [destruct (Z.ltb_spec (february_days y) d)|];
    case_decide; try tauto; try lia; try done.
  all: unfold date_constructs, not_in_future; 
    pose proof (datetime_no_KeyError y m d) as Hk;
    pose proof (datetime_no_OverflowError y m d) as Ho;
    destruct (datetime.datetime y m d) as [dt|[msg|k|o]]; cbn [try_except];
    [by destruct (datetime.gt dt now) | done | by destruct (Hk k)
    | by destruct (Ho o)].
Qed.

(** ** The calendar of [datetime] *)

Lemma is_leap_leap_year (y : Z) : datetime.is_leap y = bool_decide (leap_year y).
Proof.
  unfold datetime.is_leap, leap_year.
  (* a multiple of 400 is a multiple of 4 *)
  assert (y mod 400 = 0 → y mod 4 = 0) as H400_4.
  { intros H. Z.to_euclidean_division_equations. lia. }
  destruct (Z.eqb_spec (y mod 4) 0) as [H4|H4],
    (Z.eqb_spec (y mod 100) 0) as [H100|H100],
    (Z.eqb_spec (y mod 400) 0) as [H400|H400]; simpl; symmetry;
    (apply bool_decide_eq_true_2 || apply bool_decide_eq_false_2); tauto.
Qed.

Lemma days_in_month_length (y m : Z) :
  1 <= m <= 12 → datetime.days_in_month y m = month_length y m.
Proof.
  intros Hm. unfold datetime.days_in_month, month_length, february_days.
  rewrite is_leap_leap_year.
  assert (m = 1 ∨ m = 2 ∨ m = 3 ∨ m = 4 ∨ m = 5 ∨ m = 6 ∨ m = 7 ∨ m = 8
          ∨ m = 9 ∨ m = 10 ∨ m = 11 ∨ m = 12) as Hcases by lia.
  repeat (destruct Hcases as [-> | Hcases]); try subst m.
  all: try (by vm_compute).
  case_bool_decide;
    [rewrite (decide_True (P := leap_year y)) by done
    |rewrite (decide_False (P := leap_year y)) by done];
    by vm_compute.
Qed.

Lemma month_length_bounds (y m : Z) : 28 <= month_length y m <= 31.
Proof.
  unfold month_length, february_days. repeat case_decide; lia.
Qed.

Lemma datetime_real_date (y m d : Z) :
  real_date y m d → datetime.datetime y m d = Return (datetime.mk y m d 0 0 0 0).
Proof.
  intros (Hy & Hm & Hd). unfold datetime.datetime.
  rewrite days_in_month_length by done.
  destruct (Z.ltb_spec y 1), (Z.ltb_spec 9999 y); try lia.
  destruct (Z.ltb_spec m 1), (Z.ltb_spec 12 m); try lia.
  destruct (Z.ltb_spec d 1), (Z.ltb_spec (month_length y m) d); try lia.
  done.
Qed.

Lemma datetime_returns (y m d : Z) (dt : datetime.t) :
  datetime.datetime y m d = Return dt →
  dt = datetime.mk y m d 0 0 0 0 ∧ 1 <= y <= 9999.
Proof.
  unfold datetime.datetime.
  destruct (Z.ltb_spec y 1), (Z.ltb_spec 9999 y); try done.
  all: repeat case_match; try done. intros [= <-]. split; [done|lia].
Qed.

Lemma datetime_raises_year (y m d : Z) (e : exn) :
  datetime.datetime y m d = Raise e →
  1 <= m <= 12 → 1 <= d <= month_length y m →
  (y < 1 ∨ 9999 < y)
  ∧ e = ValueError ("year " +:+ Py.str y +:+ " is out of range").
Proof.
  intros He Hm Hd. unfold datetime.datetime in He.
  rewrite days_in_month_length in He by done.
  destruct (Z.ltb_spec y 1), (Z.ltb_spec 9999 y); simpl in He;
    try (injection He as <-; split; [lia|done]).
  destruct (Z.ltb_spec m 1), (Z.ltb_spec 12 m); try lia.
  destruct (Z.ltb_spec d 1), (Z.ltb_spec (month_length y m) d); try lia.
  done.
Qed.

(** A date at midnight is later than the clock reading exactly when its day
    is after the clock's day. *)
Lemma gt_midnight (now : datetime.t) (y m d : Z) :
  time_of_day_ok now →
  datetime.gt (datetime.mk y m d 0 0 0 0) now = true ↔ after_today now y m d.
Proof.
  intros (Hh & Hmi & Hs & Hu). unfold datetime.gt, after_today.
  destruct now as [ny nm nd nh nmi ns nu].
  cbn [datetime.year datetime.month datetime.day datetime.hour datetime.minute
       datetime.second datetime.microsecond] in *.
  unfold datetime.fields.
  cbn [datetime.year datetime.month datetime.day datetime.hour datetime.minute
       datetime.second datetime.microsecond datetime.cmp].
  repeat match goal with
         | |- context [?a ?= ?b] => destruct (Z.compare_spec a b)
         end; split; (done || lia).
Qed.

(** ** When the rules pass *)

Lemma first_failure_valid (rs : list rule) (y m d : Z) (msg : string) :
  first_failure rs y m d = (true, msg)
  ↔ msg = "Valid date" ∧ Forall (λ r, r y m d = None) rs.
Proof.
  induction rs as [|r rs IH]; simpl.
  - split; [by intros [= <-] | by intros [-> _]].
  - destruct (r y m d) eqn:E.
    + split; [done|]. intros [_ H]. inversion H; congruence.
    + rewrite IH. split; intros [? ?]; split; auto.
      by inversion H0.
Qed.

(** The verdict is that of the first failing rule, whatever the rules after
    it would say. *)
Lemma first_failure_at (rs : list rule) (y m d : Z) (i : nat) (r : rule)
    (reason : string) :
  rs !! i = Some r → r y m d = Some reason →
  (∀ j r', (j < i)%nat → rs !! j = Some r' → r' y m d = None) →
  first_failure rs y m d = (false, reason).
Proof.
  revert i. induction rs as [|r0 rs IH]; intros i Hi Hr Hbefore; [done|].
  destruct i as [|i]; simpl in *.
  - injection Hi as ->. by rewrite Hr.
  - rewrite (Hbefore 0%nat r0) by (done || lia).
    apply (IH i); [done|done|]. intros j r' Hj Hr'.
    apply (Hbefore (S j)); [lia|done].
Qed.

Lemma rules_pass_real_date (now : datetime.t) (y m d : Z) :
  time_of_day_ok now →
  Forall (λ r, r y m d = None) (rules now)
  ↔ real_date y m d ∧ ¬ after_today now y m d.
Proof.
  intros Hnow. unfold rules. rewrite !Forall_cons, Forall_nil.
  unfold month_in_range, day_in_range, thirty_day_limit, february_limit,
    date_constructs, not_in_future.
  split.
  - intros (Hm & Hd & H30 & Hfeb & Hc & Hf & _).
    destruct (decide (1 <= m <= 12)) as [Hm'|]; [clear Hm|done].
    destruct (decide (1 <= d <= 31)) as [Hd'|]; [clear Hd|done].
    destruct (decide (m ∈ [4; 6; 9; 11] ∧ 30 < d)) as [|H30']; [done|clear H30].
    destruct (decide (m = 2 ∧ february_days y < d)) as [|Hfeb'];
      [done|clear Hfeb].
    assert (1 <= d <= month_length y m) as Hlen.
    { unfold month_length.
      destruct (decide (m ∈ [4; 6; 9; 11])) as [Hin|_].
      - assert (¬ 30 < d) by tauto. lia.
      - destruct (decide (m = 2)) as [Hfeb|_]; [|lia].
        assert (¬ february_days y < d) by tauto. lia. }
    destruct (datetime.datetime y m d) as [dt|e] eqn:E.
    + apply datetime_returns in E as [-> Hy].
      split; [done|]. rewrite <- gt_midnight by done.
      by destruct (datetime.gt _ now).
    + destruct (datetime_raises_year _ _ _ _ E Hm' Hlen) as [_ ->]. done.
  - intros [Hreal Hafter]. pose proof Hreal as (Hy & Hm & Hd).
    rewrite (datetime_real_date _ _ _ Hreal).
    rewrite <- gt_midnight in Hafter by done.
    pose proof (month_length_bounds y m) as Hlen.
    rewrite (decide_True (P := 1 <= m <= 12)) by done.
    rewrite (decide_True (P := 1 <= d <= 31)) by lia.
    rewrite (decide_False (P := m ∈ [4; 6; 9; 11] ∧ 30 < d)).
    2:{ intros [Hin H30]. unfold month_length in Hd.
        rewrite decide_True in Hd by done. lia. }
    rewrite (decide_False (P := m = 2 ∧ february_days y < d)).
    2:{ intros [-> Hf]. unfold month_length in Hd.
        rewrite decide_False in Hd by (rewrite !elem_of_cons, elem_of_nil; lia).
        rewrite decide_True in Hd by done. lia. }
    destruct (datetime.gt _ now); [by destruct Hafter|]. done.
Qed.

(** [validate_date] succeeds exactly on the strings the pattern admits whose
    fields are a real calendar date not after the current day. *)
Lemma validate_date_success (now : datetime.t) (s : string) (msg : string) :
  time_of_day_ok now →
  validate_date now s = Return (true, msg)
  ↔ msg = "Valid date"
    ∧ ∃ y m d, fields s = Some (y, m, d) ∧ real_date y m d
               ∧ ¬ after_today now y m d.
Proof.
  intros Hnow. rewrite validate_date_by_rules. unfold validate_by_rules.
  destruct (fields s) as [[[y m] d]|] eqn:E.
  - split.
    + intros H. assert (first_failure (rules now) y m d = (true, msg)) as H'
        by congruence.
      clear H. apply first_failure_valid in H' as [-> H].
      split; [done|]. exists y, m, d. split; [done|].
      by apply rules_pass_real_date.
    + intros [-> (y' & m' & d' & [= <- <- <-] & H)].
      f_equal. apply first_failure_valid. split; [done|].
      by apply rules_pass_real_date.
  - split; [done|]. by intros [_ (? & ? & ? & ? & _)].
Qed.

Lemma fields_none_no_match (s : string) :
  fields s = None ↔ re.match_ date_pattern s = None.
Proof.
  pose proof (match_date_pattern s) as H.
  destruct (fields s), (re.match_ date_pattern s); simpl in H; done.
Qed.

(** C4: for every string, [validate_date] applies the rules in the fixed
    order pattern, month range, day range, 30-day months, February, date
    construction, future date: a string the pattern rejects gets the format
    message; otherwise the result is the verdict of the first rule of the
    list that fails on the year, month and day fields, whatever the later
    rules say; e.g. ["2024-13-5"] fails the pattern and gets the format
    message although its month is 13. *)
Theorem validate_date_first_failure_wins (now : datetime.t) (s : string) :
  (fields s = None ↔ re.match_ date_pattern s = None)
  ∧ validate_date now s
    = Return (match fields s with
              | None => (false, format_message)
              | Some (y, m, d) => first_failure (rules now) y m d
              end)
  ∧ (∀ (y m d : Z) (i : nat) (r : rule) (reason : string),
       fields s = Some (y, m, d) →
       rules now !! i = Some r → r y m d = Some reason →
       (∀ (j : nat) (r' : rule),
          (j < i)%nat → rules now !! j = Some r' → r' y m d = None) →
       validate_date now s = Return (false, reason))
  ∧ validate_date now "2024-13-5" = Return (false, format_message).
Proof.
  split; [apply fields_none_no_match|].
  split; [apply validate_date_by_rules|].
  split; [|reflexivity].
  intros y m d i r reason Hf Hi Hr Hbefore.
  rewrite validate_date_by_rules. unfold validate_by_rules. rewrite Hf.
  f_equal. by apply (first_failure_at _ _ _ _ i r).
Qed.

(** ** Totality of [validate_date] *)

Lemma append_nonempty (s t : string) : s ≠ EmptyString → s +:+ t ≠ EmptyString.
Proof. destruct s; [done|]. intros _. discriminate. Qed.

Lemma rules_reason_nonempty (now : datetime.t) (y m d : Z) (r : rule)
    (reason : string) :
  r ∈ rules now → r y m d = Some reason → reason ≠ EmptyString.
Proof.
  unfold rules. rewrite !elem_of_cons, elem_of_nil.
  intros [->|[->|[->|[->|[->|[->|[]]]]]]];
    unfold month_in_range, day_in_range, thirty_day_limit, february_limit,
      date_constructs, not_in_future;
    repeat case_match; intros [= <-]; by apply append_nonempty || done.
Qed.

Lemma first_failure_reason_nonempty (rs : list rule) (y m d : Z) :
  (∀ r reason, r ∈ rs → r y m d = Some reason → reason ≠ EmptyString) →
  (first_failure rs y m d).2 ≠ EmptyString.
Proof.
  induction rs as [|r rs IH]; intros Hrs; [done|]. simpl.
  destruct (r y m d) as [reason|] eqn:E.
  - apply (Hrs r); [left|done].
  - apply IH. intros r' reason Hin. apply Hrs. by right.
Qed.

Lemma validate_date_returns_pair (now : datetime.t) (s : string) :
  ∃ (ok : bool) (reason : string), validate_date now s = Return (ok, reason).
Proof.
  exists (validate_by_rules now s).1, (validate_by_rules now s).2.
  rewrite validate_date_by_rules. by destruct (validate_by_rules _ _).
Qed.

(** C6: for every string, [validate_date] returns a pair of a boolean and a
    non-empty message and lets no exception escape: a [ValueError] raised in
    its body becomes [(False, "Invalid date: ...")], no other exception is
    raised there, success always carries the message "Valid date", and the
    year 0000, which passes every earlier check, is reported this way. *)
Theorem validate_date_total (now : datetime.t) (s : string) :
  (∃ (ok : bool) (reason : string),
     validate_date now s = Return (ok, reason)
     ∧ reason ≠ EmptyString
     ∧ (ok = true → reason = "Valid date"))
  ∧ (∀ e : string,
       validate_date_body now s = Raise (ValueError e) →
       validate_date now s = Return (false, "Invalid date: " +:+ e))
  ∧ (∀ k : string, validate_date_body now s ≠ Raise (KeyError k))
  ∧ (∀ o : string, validate_date_body now s ≠ Raise (OverflowError o))
  ∧ validate_date now "0000-01-01"
    = Return (false, "Invalid date: year 0 is out of range").
Proof.
  split; [|split; [|split; [|split; [|reflexivity]]]].
  - exists (validate_by_rules now s).1, (validate_by_rules now s).2.
    split; [rewrite validate_date_by_rules; by destruct (validate_by_rules _ _)|].
    unfold validate_by_rules.
    destruct (fields s) as [[[y m] d]|]; [|by split].
    split.
    + apply first_failure_reason_nonempty. intros r reason.
      apply rules_reason_nonempty.
    + intros Hok.
      destruct (first_failure (rules now) y m d) as [ok reason] eqn:E.
      simpl in Hok. subst ok. by apply first_failure_valid in E as [-> _].
  - intros e He. unfold validate_date. by rewrite He.
  - intros k Hk. pose proof (validate_date_by_rules now s) as H.
    unfold validate_date in H. by rewrite Hk in H.
  - intros o Ho. pose proof (validate_date_by_rules now s) as H.
    unfold validate_date in H. by rewrite Ho in H.
Qed.

Lemma first_failure_inv (rs : list rule) (y m d : Z) (reason : string) :
  first_failure rs y m d = (false, reason) →
  ∃ (i : nat) (r : rule),
    rs !! i = Some r ∧ r y m d = Some reason
    ∧ ∀ (j : nat) (r' : rule),
        (j < i)%nat → rs !! j = Some r' → r' y m d = None.
Proof.
  induction rs as [|r0 rs IH]; [done|]. simpl.
  destruct (r0 y m d) as [reason0|] eqn:E.
  - intros [= <-]. exists 0%nat, r0. repeat split; [done|]. lia.
  - intros (i & r & Hi & Hr & Hbefore)%IH. exists (S i), r.
    repeat split; [done..|]. intros [|j] r' Hj Hr'.
    + by injection Hr' as <-.
    + apply (Hbefore j); [lia|done].
Qed.

Lemma calendar_rules_pass (y m d : Z) :
  month_in_range y m d = None → day_in_range y m d = None →
  thirty_day_limit y m d = None → february_limit y m d = None →
  1 <= m <= 12 ∧ 1 <= d <= month_length y m.
Proof.
  unfold month_in_range, day_in_range, thirty_day_limit, february_limit.
  destruct (decide (1 <= m <= 12)) as [Hm|]; [intros _|done].
  destruct (decide (1 <= d <= 31)) as [Hd|]; [intros _|done].
  destruct (decide (m ∈ [4; 6; 9; 11] ∧ 30 < d)) as [|H30]; [done|intros _].
  destruct (decide (m = 2 ∧ february_days y < d)) as [|Hfeb]; [done|intros _].
  split; [done|]. unfold month_length.
  destruct (decide (m ∈ [4; 6; 9; 11])) as [Hin|_].
  - assert (¬ 30 < d) by tauto. lia.
  - destruct (decide (m = 2)) as [Hm2|_]; [|lia].
    assert (¬ february_days y < d) by tauto. lia.
Qed.

(** A [ValueError] reaches the handler only from the date construction, and
    only for the year 0. *)
Lemma validate_date_body_raises (now : datetime.t) (s : string) (e : exn) :
  validate_date_body now s = Raise e →
  ∃ m d, fields s = Some (0, m, d)
         ∧ e = ValueError "year 0 is out of range".
Proof.
  intros He. pose proof (validate_date_by_rules now s) as H.
  unfold validate_date in H. rewrite He in H.
  destruct e as [msg|k|o]; cbn [try_except] in H; [|done..].
  assert (validate_by_rules now s = (false, "Invalid date: " +:+ msg)) as Hv
    by congruence.
  clear H. unfold validate_by_rules in Hv.
  destruct (fields s) as [[[y m] d]|] eqn:E; [|discriminate Hv].
  apply first_failure_inv in Hv as (i & r & Hi & Hr & Hbefore).
  pose proof (fields_bounds _ _ _ _ E) as (Hy & _ & _).
  unfold rules in Hi, Hbefore.
  do 4 (destruct i as [|i];
        [injection Hi as <-;
         revert Hr;
         unfold month_in_range, day_in_range, thirty_day_limit, february_limit;
         case_decide; discriminate|]).
  destruct i as [|[|i]]; [| |done].
  - injection Hi as <-.
    destruct (calendar_rules_pass y m d) as [Hm Hd].
    { by apply (Hbefore 0%nat); [lia|]. }
    { by apply (Hbefore 1%nat); [lia|]. }
    { by apply (Hbefore 2%nat); [lia|]. }
    { by apply (Hbefore 3%nat); [lia|]. }
    unfold date_constructs in Hr.
    destruct (datetime.datetime y m d) as [dt|e'] eqn:Ed; [done|].
    destruct (datetime_raises_year _ _ _ _ Ed Hm Hd) as [Hrange ->].
    assert (y = 0) as -> by lia.
    exists m, d. split; [done|].
    injection Hr as Hr. apply (inj (String.append _)) in Hr. by subst msg.
  - injection Hi as <-. unfold not_in_future in Hr.
    destruct (datetime.datetime y m d); [|done].
    destruct (datetime.gt _ now); discriminate.
Qed.

(** ** Which dates [validate_date] accepts *)

(** Every string in YYYY-MM-DD form that writes a real calendar date not
    after the current day is accepted. *)
Lemma validate_date_accepts_real_dates (now : datetime.t) (s : string)
    (y m d : Z) :
  time_of_day_ok now →
  ymd_form s = Some (y, m, d) → real_date y m d → ¬ after_today now y m d →
  validate_date now s = Return (true, "Valid date").
Proof.
  intros Hnow Hform Hreal Hafter. apply validate_date_success; [done|].
  split; [done|]. exists y, m, d. by split; [apply ymd_form_fields|].
Qed.

(** A date strictly after the current day is rejected; when it is a real
    calendar date the reason is the future-date message. *)
Lemma validate_date_rejects_future (now : datetime.t) (s : string) (y m d : Z) :
  time_of_day_ok now →
  fields s = Some (y, m, d) → after_today now y m d →
  (∃ reason, validate_date now s = Return (false, reason))
  ∧ (real_date y m d →
     validate_date now s = Return (false, "Date cannot be in the future!")).
Proof.
  intros Hnow Hf Hafter. split.
  - destruct (validate_date_returns_pair now s) as (ok & reason & Hv).
    destruct ok; [|by exists reason].
    apply validate_date_success in Hv as [_ (y' & m' & d' & Hf' & _ & Hn)];
      [|done].
    rewrite Hf in Hf'. injection Hf' as <- <- <-. done.
  - intros Hreal. rewrite validate_date_by_rules. unfold validate_by_rules.
    rewrite Hf. f_equal.
    apply (first_failure_at _ _ _ _ 5%nat (not_in_future now)); [done| |].
    + unfold not_in_future. rewrite (datetime_real_date _ _ _ Hreal).
      apply gt_midnight in Hafter; [|done]. by rewrite Hafter.
    + intros j r' Hj Hr'.
      assert (Forall (λ r, r y m d = None) (take 5 (rules now))) as Hall.
      { pose proof Hreal as (Hy & Hm & Hd).
        pose proof (month_length_bounds y m) as Hlen.
        unfold rules. cbn [take]. rewrite !Forall_cons, Forall_nil.
        unfold month_in_range, day_in_range, thirty_day_limit, february_limit,
          date_constructs.
        rewrite (datetime_real_date _ _ _ Hreal).
        rewrite (decide_True (P := 1 <= m <= 12)) by done.
        rewrite (decide_True (P := 1 <= d <= 31)) by lia.
        rewrite (decide_False (P := m ∈ [4; 6; 9; 11] ∧ 30 < d)).
        2:{ intros [Hin H30]. unfold month_length in Hd.
            rewrite decide_True in Hd by done. lia. }
        rewrite (decide_False (P := m = 2 ∧ february_days y < d)).
        2:{ intros [-> Hf']. unfold month_length in Hd.
            rewrite decide_False in Hd
              by (rewrite !elem_of_cons, elem_of_nil; lia).
            rewrite decide_True in Hd by done. lia. }
        done. }
      rewrite Forall_lookup in Hall. apply (Hall j).
      rewrite lookup_take_lt by done. done.
Qed.

(** The dated examples: 29 February exists in 2024 and not in 2023, and
    30 February never does. *)
Lemma validate_date_february_examples (now : datetime.t) :
  validate_date now "2023-02-29"
  = Return (false, "February 2023 has only 28 days")
  ∧ validate_date now "2024-02-30"
    = Return (false, "February 2024 has only 29 days")
  ∧ (time_of_day_ok now → ¬ after_today now 2024 2 29 →
     validate_date now "2024-02-29" = Return (true, "Valid date")).
Proof.
  split; [reflexivity|]. split; [reflexivity|]. intros Hnow Hafter.
  apply (validate_date_accepts_real_dates now _ 2024 2 29);
    [done|reflexivity| |done].
  by vm_compute.
Qed.

Lemma ymd_form_newline (s : string) (y m d : Z) :
  ymd_form s = Some (y, m, d) →
  fields (s +:+ String re.newline EmptyString) = Some (y, m, d)
  ∧ ymd_form (s +:+ String re.newline EmptyString) = None.
Proof.
  unfold ymd_form, fields.
  destruct (leading_ymd s) as [[[[y' m'] d'] rest]|] eqn:E; [|done].
  destruct rest; [|done]. intros [= -> -> ->].
  apply leading_ymd_shape in E.
  inversion E as [y1 y2 y3 y4 m1 m2 d1 d2 rest Hy1 Hy2 Hy3 Hy4 Hm1 Hm2 Hd1 Hd2];
    subst.
  assert (leading_ymd
            (String y1 (String y2 (String y3 (String y4 (String "-" (String m1
               (String m2 (String "-" (String d1 (String d2
                  (String re.newline EmptyString)))))))))))
          = Some (decimal (String y1 (String y2 (String y3 (String y4 EmptyString)))),
                  decimal (String m1 (String m2 EmptyString)),
                  decimal (String d1 (String d2 EmptyString)),
                  String re.newline EmptyString)) as Hl.
  { apply leading_ymd_shape. by constructor. }
  change (String y1 _ +:+ String re.newline EmptyString)
    with (String y1 (String y2 (String y3 (String y4 (String "-" (String m1
            (String m2 (String "-" (String d1 (String d2
               (String re.newline EmptyString))))))))))).
  by rewrite Hl.
Qed.

(** The final [$] of the pattern also holds just before a newline that ends
    the string: a date followed by a newline gets the verdict of the date
    itself, although it is not in YYYY-MM-DD form. *)
Lemma validate_date_ignores_final_newline (now : datetime.t) (s : string)
    (y m d : Z) :
  ymd_form s = Some (y, m, d) →
  validate_date now (s +:+ String re.newline EmptyString) = validate_date now s
  ∧ ymd_form (s +:+ String re.newline EmptyString) = None.
Proof.
  intros Hform. destruct (ymd_form_newline _ _ _ _ Hform) as [Hf Hnone].
  split; [|done]. rewrite !validate_date_by_rules. unfold validate_by_rules.
  by rewrite Hf, (ymd_form_fields _ _ _ _ Hform).
Qed.

(** C5 fails on the code for a date followed by a newline:
    [validate_date("2024-01-15\n")] succeeds although the string is not in
    YYYY-MM-DD form; the month view later cannot parse such a date. *)
Theorem validate_date_accepts_trailing_newline :
  let date_string := "2024-01-15" +:+ String re.newline EmptyString in
  validate_date clock_example date_string = Return (true, "Valid date")
  ∧ ymd_form date_string = None
  ∧ datetime.strptime_Ymd date_string
    = Raise (ValueError ("unconverted data remains: "
                         +:+ String re.newline EmptyString)).
Proof. repeat split. Qed.

(** ** Stored dates parse

    A date in YYYY-MM-DD form that writes a real calendar date, and the
    current date as [strftime] formats it from the year 1000 on, are parsed
    by [strptime], so the month filter does not raise on a store of such
    dates. *)

Lemma int_digit_string (s : string) :
  all_digits s = true → s ≠ EmptyString → Py.int s = Return (decimal s).
Proof.
  intros Hd Hne. rewrite <- (append_empty_r s) at 1.
  apply int_all_digits; auto.
Qed.

Lemma code_inj (c c' : ascii) : Py.code c = Py.code c' → c = c'.
Proof.
  unfold Py.code. intros H. apply N2Z.inj in H.
  rewrite <- (ascii_N_embedding c), <- (ascii_N_embedding c'). by rewrite H.
Qed.

Lemma ascii_eqb_code (c c' : ascii) :
  Ascii.eqb c c' = (Py.code c =? Py.code c').
Proof.
  destruct (Ascii.eqb_spec c c') as [->|Hne].
  - by rewrite Z.eqb_refl.
  - symmetry. apply Z.eqb_neq. intros H. by apply Hne, code_inj.
Qed.

(** [strptime] reads a real calendar date in YYYY-MM-DD form as that date. *)
Lemma strptime_real_date (s : string) (y m d : Z) :
  ymd_form s = Some (y, m, d) → real_date y m d →
  datetime.strptime_Ymd s = Return (datetime.mk y m d 0 0 0 0).
Proof.
  intros Hform Hreal. unfold ymd_form in Hform.
  destruct (leading_ymd s) as [[[[y' m'] d'] [|]]|] eqn:E; try done.
  injection Hform as -> -> ->. apply leading_ymd_shape in E.
  rewrite <- (datetime_real_date _ _ _ Hreal).
  destruct Hreal as (_ & Hm & Hd).
  pose proof (month_length_bounds y m) as Hlen.
  inversion E as [y1 y2 y3 y4 m1 m2 d1 d2 rest Hy1 Hy2 Hy3 Hy4 Hm1 Hm2 Hd1 Hd2];
    subst. clear E.
  unfold decimal in Hm, Hd, Hlen. cbn [decimal_from] in Hm, Hd, Hlen.
  unfold Py.digit_val in Hm, Hd, Hlen.
  unfold datetime.strptime_Ymd, re.match_, datetime.Ymd_regex.
  cbn [re.seq re.alt re.times re.run re.lit re.digit re.range Nat.sub re.take].
  rewrite Hy1, Hy2, Hy3, Hy4, !ascii_eqb_code.
  pose proof Hm1 as Hm1'. pose proof Hm2 as Hm2'.
  pose proof Hd1 as Hd1'. pose proof Hd2 as Hd2'.
  apply is_digit_code in Hm1', Hm2', Hd1', Hd2'.
  repeat match goal with
         | |- context [Py.code (Ascii ?a ?b ?c ?d ?e ?f ?g ?h)] =>
             let v := eval vm_compute in (Py.code (Ascii a b c d e f g h)) in
             change (Py.code (Ascii a b c d e f g h)) with v
         end.
  rewrite Hd2.
  repeat (match goal with
          | |- context [?a =? ?b] => destruct (Z.eqb_spec a b); try lia
          | |- context [(?a <=? ?b)] => destruct (Z.leb_spec a b); try lia
          end; cbn [andb]).
  all: cbn [String.length Nat.eqb negb re.end_ re.groupdict re.group String.eqb
            Ascii.eqb Bool.eqb].
  all: rewrite !int_digit_string; cbn [all_digits];
    rewrite ?Hy1, ?Hy2, ?Hy3, ?Hy4, ?Hm1, ?Hm2, ?Hd1, ?Hd2; done.
Qed.

Lemma check_below (check : Z → bool) (bound n : Z) :
  forallb check (Z.of_nat <$> seq 0 (Z.to_nat bound)) = true →
  0 <= n < bound → check n = true.
Proof.
  intros Hall Hn. rewrite forallb_forall in Hall. apply Hall.
  apply list_elem_of_In, list_elem_of_fmap. exists (Z.to_nat n).
  split; [lia|]. apply list_elem_of_In, in_seq. lia.
Qed.

Lemma zero_pad_4 (n : Z) : 0 <= n <= 9999 → pad_ok 4 n = true.
Proof.
  intros Hn. apply (check_below (pad_ok 4) 10000); [by vm_compute | lia].
Qed.

Lemma zero_pad_2 (n : Z) : 0 <= n <= 99 → pad_ok 2 n = true.
Proof.
  intros Hn. apply (check_below (pad_ok 2) 100); [by vm_compute | lia].
Qed.

(** From 1000 to 9999 the year is written with its four digits. *)
Lemma str_year (n : Z) : 1000 <= n <= 9999 → Py.str n = Py.zero_pad 4 n.
Proof.
  intros Hn. assert (year_ok n = true) as H.
  { apply (check_below year_ok 10000); [by vm_compute | lia]. }
  unfold year_ok in H. destruct (Z.ltb_spec n 1000); [lia|].
  by apply String.eqb_eq in H.
Qed.

Lemma pad_ok_inv (width : nat) (n : Z) :
  pad_ok width n = true →
  String.length (Py.zero_pad width n) = width
  ∧ all_digits (Py.zero_pad width n) = true
  ∧ decimal (Py.zero_pad width n) = n.
Proof.
  unfold pad_ok. intros [[Hl Hd]%andb_prop Hv]%andb_prop.
  apply Nat.eqb_eq in Hl. apply Z.eqb_eq in Hv. done.
Qed.

Lemma ymd_form_join (a b c : string) :
  String.length a = 4%nat → String.length b = 2%nat → String.length c = 2%nat →
  all_digits a = true → all_digits b = true → all_digits c = true →
  ymd_form (a +:+ "-" +:+ b +:+ "-" +:+ c)
  = Some (decimal a, decimal b, decimal c).
Proof.
  intros Ha Hb Hc Hda Hdb Hdc.
  destruct a as [|a1 [|a2 [|a3 [|a4 [|]]]]]; try done.
  destruct b as [|b1 [|b2 [|]]]; try done.
  destruct c as [|c1 [|c2 [|]]]; try done.
  unfold ymd_form. cbn [all_digits] in *.
  assert (leading_ymd (String a1 (String a2 (String a3 (String a4 "")))
                       +:+ "-" +:+ String b1 (String b2 "") +:+ "-"
                       +:+ String c1 (String c2 ""))
          = Some (decimal (String a1 (String a2 (String a3 (String a4 "")))),
                  decimal (String b1 (String b2 "")),
                  decimal (String c1 (String c2 "")), EmptyString)) as ->;
    [|done].
  apply leading_ymd_shape.
  repeat match goal with
         | H : _ && _ = true |- _ => apply andb_prop in H as [? ?]
         end.
  by constructor.
Qed.

Lemma real_date_day_bound (y m d : Z) :
  real_date y m d → 0 <= y <= 9999 ∧ 0 <= m <= 99 ∧ 0 <= d <= 99.
Proof.
  intros (Hy & Hm & Hd). pose proof (month_length_bounds y m). lia.
Qed.

(** The formatted current date is in YYYY-MM-DD form and writes the day of
    the clock. *)
Lemma strftime_ymd_form (now : datetime.t) :
  clock_ok now →
  ymd_form (datetime.strftime_Ymd now)
  = Some (datetime.year now, datetime.month now, datetime.day now).
Proof.
  intros (Hyear & Hreal & _).
  apply real_date_day_bound in Hreal as (Hy & Hm & Hd).
  unfold datetime.strftime_Ymd. rewrite str_year by lia.
  apply zero_pad_4, pad_ok_inv in Hy as (Hyl & Hyd & Hyv).
  apply zero_pad_2, pad_ok_inv in Hm as (Hml & Hmd & Hmv).
  apply zero_pad_2, pad_ok_inv in Hd as (Hdl & Hdd & Hdv).
  rewrite ymd_form_join by done.
  by rewrite Hyv, Hmv, Hdv.
Qed.

(** The current date, as [add_transaction] formats it, satisfies
    [validate_date]. *)
Lemma strftime_validates (now : datetime.t) :
  clock_ok now →
  validate_date now (datetime.strftime_Ymd now) = Return (true, "Valid date").
Proof.
  intros Hnow. pose proof Hnow as (_ & Hreal & Htime).
  apply (validate_date_accepts_real_dates now _ _ _ _ Htime
           (strftime_ymd_form now Hnow) Hreal).
  unfold after_today. lia.
Qed.

Lemma rstrip_last_not_space (s p : string) (c : ascii) :
  Py.rstrip Py.is_space s = p +:+ String c EmptyString → Py.is_space c = false.
Proof.
  revert p. induction s as [|c0 s IH]; intros p; simpl.
  - by destruct p.
  - destruct (Py.rstrip Py.is_space s) as [|c1 r] eqn:E.
    + destruct (Py.is_space c0) eqn:Hsp; [by destruct p|].
      destruct p as [|? [|]]; intros [= <-]; done.
    + destruct p as [|c2 p]; [done|]. intros [= <- Hr]. by apply (IH p).
Qed.

(** A date accepted by the prompt loop is a real calendar date in YYYY-MM-DD
    form: the line is stripped, so no final newline is left. *)
Lemma get_valid_date_form (lines : list (datetime.t * string)) (s : string) :
  Forall (λ l, time_of_day_ok l.1) lines →
  get_valid_date lines = Return (Some (Some s)) →
  ∃ y m d, ymd_form s = Some (y, m, d) ∧ real_date y m d.
Proof.
  induction 1 as [|[now line] lines Hnow _ IH]; [done|]. simpl in *.
  remember (Py.strip line) as input eqn:Hinput.
  destruct (String.eqb input EmptyString); [done|].
  destruct (validate_date now input) as [[[] reason]|] eqn:Hv; [|done..].
  simpl. intros [= <-].
  apply validate_date_success in Hv as [_ (y & m & d & Hf & Hreal & _)];
    [|done].
  exists y, m, d. split; [|done].
  apply fields_shape in Hf as (rest & Hshape & Hend).
  apply ends_ok_cases in Hend as [-> | ->].
  - unfold ymd_form. apply leading_ymd_shape in Hshape. by rewrite Hshape.
  - exfalso.
    inversion Hshape as [y1 y2 y3 y4 m1 m2 d1 d2 rest' ? ? ? ? ? ? ? ? Hs];
      subst.
    assert (Py.is_space re.newline = false) as Hsp; [|done].
    apply (rstrip_last_not_space (Py.lstrip Py.is_space line)
             (String y1 (String y2 (String y3 (String y4 (String "-"
                (String m1 (String m2 (String "-" (String d1
                   (String d2 EmptyString))))))))))).
    symmetry. exact Hs.
Qed.

(** An empty or blank line asks for the current date: the loop returns
    [None], and [add_transaction] then stores the formatted current date. *)
Lemma get_valid_date_blank_line (now now' : datetime.t) (line : string)
    (lines : list (datetime.t * string)) (self : BudgetTracker.t) (a : Z)
    (d c : string) :
  Py.strip line = EmptyString →
  ∃ chosen,
    get_valid_date ((now, line) :: lines) = Return (Some chosen)
    ∧ stored_date now' self a d c chosen = Some (datetime.strftime_Ymd now').
Proof.
  intros Hblank. exists None. simpl. rewrite Hblank. split; [done|].
  apply stored_date_eq.
Qed.

Lemma apply_call_record (self : BudgetTracker.t) (c : call) :
  BudgetTracker.transactions (apply_call self c)
  = BudgetTracker.transactions self ++ [record_of c].
Proof. unfold apply_call, record_of. simpl. by destruct (call_date c). Qed.

Lemma run_transactions (calls : list call) :
  BudgetTracker.transactions (run calls) = record_of <$> calls.
Proof.
  induction calls as [|c calls IH] using rev_ind; [done|].
  by rewrite run_snoc, apply_call_record, IH, fmap_app.
Qed.

Lemma well_dated_parses (c : call) : well_dated c → date_parses (record_of c).
Proof.
  intros [Hnow Hdate]. unfold date_parses, record_of. simpl.
  destruct (call_date c) as [s|]; simpl.
  - destruct Hdate as (y & m & d & Hform & Hreal).
    eexists. by apply strptime_real_date.
  - eexists. apply strptime_real_date; [by apply strftime_ymd_form|].
    by destruct Hnow as (_ & ? & _).
Qed.

(** On a store filled by well-dated calls the month filter returns. *)
Lemma month_filter_returns (calls : list call) (m y : Z) :
  Forall well_dated calls →
  month_transactions m y (BudgetTracker.transactions (run calls))
  = Return (List.filter (parses_to m y)
              (BudgetTracker.transactions (run calls))).
Proof.
  intros Hall. unfold month_transactions. rewrite for_each_month_step; [done|].
  rewrite run_transactions. apply Forall_fmap.
  eapply Forall_impl; [done|]. apply well_dated_parses.
Qed.

(** * Further properties of the code *)

(** ** Spending by category, transaction by transaction *)




(** ** The report and the category set *)

(** X4: after any sequence of [add_transaction] calls on a fresh tracker,
    every category of the spending report is a known category of the
    tracker, and a category is missing from the report exactly when none of
    its transactions has a negative amount. *)
Theorem report_categories_are_known (calls : list call) :
  ∃ m : gmap string Z,
    BudgetTracker.category_totals (BudgetTracker.transactions (run calls))
    = Return m
    ∧ dom m ⊆ BudgetTracker.categories (run calls)
    ∧ (∀ c, c ∉ dom m
            ↔ ∀ t, t ∈ BudgetTracker.transactions (run calls) →
                   category t = c → 0 <= amount t).
Proof.
  destruct (category_totals_spec (BudgetTracker.transactions (run calls)))
    as (m & Hm & Hlook).
  exists m. split; [done|].
  assert (∀ c, c ∈ dom m
               ↔ ∃ t, t ∈ BudgetTracker.transactions (run calls)
                      ∧ category t = c ∧ amount t < 0) as Hdom.
  { intros c. rewrite elem_of_dom, Hlook, <- expenses_of_nonempty.
    case_decide as Hd.
    - split; [by intros [? ?] | done].
    - split; [done | by eexists]. }
  split.
  - intros c (t & Hin & <- & _)%Hdom. rewrite run_categories.
    apply elem_of_list_to_set, list_elem_of_fmap. by exists t.
  - intros c. rewrite Hdom. split.
    + intros Hno t Hin Hc. destruct (Z.lt_ge_cases (amount t) 0); [|done].
      destruct Hno. by exists t.
    + intros Hall (t & Hin & Hc & Hneg). specialize (Hall t Hin Hc). lia.
Qed.

(** ** The verdicts of [validate_date] *)

(** X5: with a clock whose time of day is not negative, [validate_date]
    succeeds exactly on the strings made of four digits, a hyphen, two
    digits, a hyphen and two digits, possibly followed by one final newline,
    whose three numbers are a real calendar date of the years 1 to 9999 not
    after the current day; in particular it succeeds on every such date
    written in YYYY-MM-DD form. *)
Theorem validate_date_accepts_exactly (now : datetime.t) (s : string) :
  time_of_day_ok now →
  (validate_date now s = Return (true, "Valid date")
   ↔ ∃ y m d, fields s = Some (y, m, d) ∧ real_date y m d
              ∧ ¬ after_today now y m d)
  ∧ (∀ y m d, ymd_form s = Some (y, m, d) → real_date y m d →
              ¬ after_today now y m d →
              validate_date now s = Return (true, "Valid date")).
Proof.
  intros Hnow. split.
  - rewrite validate_date_success by done. split; [by intros [_ ?] | done].
  - intros y m d Hform Hreal Hafter.
    by apply (validate_date_accepts_real_dates now s y m d).
Qed.

Lemma validate_date_accepts_exactly_example :
  time_of_day_ok clock_example
  ∧ (validate_date clock_example "2024-02-29" = Return (true, "Valid date")
     ↔ ∃ y m d, fields "2024-02-29" = Some (y, m, d) ∧ real_date y m d
                ∧ ¬ after_today clock_example y m d)
  ∧ (∀ y m d, ymd_form "2024-02-29" = Some (y, m, d) → real_date y m d →
              ¬ after_today clock_example y m d →
              validate_date clock_example "2024-02-29"
              = Return (true, "Valid date")).
Proof.
  assert (time_of_day_ok clock_example) as Hnow by (by vm_compute).
  split; [exact Hnow|].
  exact (validate_date_accepts_exactly clock_example "2024-02-29" Hnow).
Defined.

Lemma validate_date_body_year_0 (now : datetime.t) (s : string) (m d : Z) :
  fields s = Some (0, m, d) → 1 <= m <= 12 → 1 <= d <= month_length 0 m →
  validate_date_body now s = Raise (ValueError "year 0 is out of range").
Proof.
  intros Hf Hm Hd. pose proof (month_length_bounds 0 m) as Hlen.
  unfold validate_date_body. rewrite match_date_pattern, Hf.
  cbn [Py.truthy negb]. rewrite (parse_fields _ _ _ _ Hf).
  unfold mbind, result_bind, bind.
  destruct (Z.ltb_spec m 1), (Z.ltb_spec 12 m); try lia. cbn [orb].
  destruct (Z.ltb_spec d 1), (Z.ltb_spec 31 d); try lia. cbn [orb].
  unfold month_length in Hd.
  assert (bool_decide (m ∈ months_with_30_days) && (30 <? d) = false) as ->.
  { case_bool_decide as Hin; [|done]. cbn [andb].
    rewrite decide_True in Hd by done. apply Z.ltb_ge. lia. }
  rewrite max_days_february.
  destruct (Z.eqb_spec m 2) as [->|Hne].
  - rewrite decide_False in Hd by (rewrite !elem_of_cons, elem_of_nil; lia).
    rewrite decide_True in Hd by done.
    destruct (Z.ltb_spec (february_days 0) d); [lia|]. reflexivity.
  - reflexivity.
Qed.

(** X6: the [except ValueError] branch of [validate_date] is reached for one
    kind of input only: a string the pattern admits whose year is 0000 and
    whose month and day pass the range, 30-day and February checks. The
    exception is then the one of the date construction, and the result is
    [(False, "Invalid date: year 0 is out of range")]. *)
Theorem validate_date_handler_only_for_year_0 (now : datetime.t) (s : string) :
  ((∃ e, validate_date_body now s = Raise e)
   ↔ ∃ m d, fields s = Some (0, m, d)
            ∧ 1 <= m <= 12 ∧ 1 <= d <= month_length 0 m)
  ∧ (∀ e, validate_date_body now s = Raise e →
          e = ValueError "year 0 is out of range"
          ∧ validate_date now s
            = Return (false, "Invalid date: year 0 is out of range")).
Proof.
  split; [split|].
  - intros [e He]. pose proof He as (m & d & Hf & ->)%validate_date_body_raises.
    exists m, d. split; [done|].
    (* the earlier checks passed, or the body would have returned *)
    unfold validate_date_body in He. rewrite match_date_pattern, Hf in He.
    cbn [Py.truthy negb] in He. rewrite (parse_fields _ _ _ _ Hf) in He.
    unfold mbind, result_bind, bind in He.
    destruct (Z.ltb_spec m 1), (Z.ltb_spec 12 m); try done. cbn [orb] in He.
    destruct (Z.ltb_spec d 1), (Z.ltb_spec 31 d); try done. cbn [orb] in He.
    split; [lia|]. split; [lia|]. unfold month_length.
    destruct (bool_decide (m ∈ months_with_30_days) && (30 <? d)) eqn:H30;
      [done|].
    rewrite max_days_february in He.
    destruct (decide (m ∈ [4; 6; 9; 11])) as [Hin|Hnot].
    + rewrite bool_decide_eq_true_2 in H30 by done. cbn [andb] in H30.
      apply Z.ltb_ge in H30. done.
    + destruct (decide (m = 2)) as [->|Hne]; [|lia].
      rewrite Z.eqb_refl in He.
      destruct (Z.ltb_spec (february_days 0) d); [done|lia].
  - intros (m & d & Hf & Hm & Hd). eexists.
    by apply (validate_date_body_year_0 now s m d).
  - intros e He. pose proof He as (m & d & Hf & ->)%validate_date_body_raises.
    split; [done|]. unfold validate_date. by rewrite He.
Qed.

(** X7: a date after the current day never passes [validate_date]; when it
    is a real calendar date, the reason given is the future-date message. *)
Theorem validate_date_future_dates (now : datetime.t) (s : string) (y m d : Z) :
  time_of_day_ok now →
  fields s = Some (y, m, d) → after_today now y m d →
  (∃ reason, validate_date now s = Return (false, reason))
  ∧ (real_date y m d →
     validate_date now s = Return (false, "Date cannot be in the future!")).
Proof. apply validate_date_rejects_future. Qed.

Lemma validate_date_future_dates_example :
  time_of_day_ok clock_example
  ∧ fields "2024-03-11" = Some (2024, 3, 11)
  ∧ after_today clock_example 2024 3 11
  ∧ (∃ reason,
       validate_date clock_example "2024-03-11" = Return (false, reason))
  ∧ (real_date 2024 3 11 →
     validate_date clock_example "2024-03-11"
     = Return (false, "Date cannot be in the future!")).
Proof.
  assert (time_of_day_ok clock_example) as Hnow by (by vm_compute).
  assert (fields "2024-03-11" = Some (2024, 3, 11)) as Hf by reflexivity.
  assert (after_today clock_example 2024 3 11) as Hafter
    by (unfold after_today; simpl; lia).
  split; [exact Hnow|]. split; [exact Hf|]. split; [exact Hafter|].
  exact (validate_date_future_dates clock_example "2024-03-11" 2024 3 11
           Hnow Hf Hafter).
Defined.

(** ** The default date *)

(** X8: for a clock reading that [datetime] can represent, in a year from
    1000 on, the date that [add_transaction] substitutes for a missing one
    is in YYYY-MM-DD form, passes [validate_date] at that same clock reading,
    and is read back by [strptime] in the month view as the day of the
    clock. *)
Theorem default_date_round_trip (now : datetime.t) :
  clock_ok now →
  ymd_form (datetime.strftime_Ymd now)
  = Some (datetime.year now, datetime.month now, datetime.day now)
  ∧ validate_date now (datetime.strftime_Ymd now) = Return (true, "Valid date")
  ∧ datetime.strptime_Ymd (datetime.strftime_Ymd now)
    = Return (datetime.mk (datetime.year now) (datetime.month now)
                (datetime.day now) 0 0 0 0).
Proof.
  intros Hnow. split; [by apply strftime_ymd_form|].
  split; [by apply strftime_validates|].
  apply strptime_real_date; [by apply strftime_ymd_form|].
  by destruct Hnow as (_ & ? & _).
Qed.

Lemma clock_example_ok : clock_ok clock_example.
Proof. by vm_compute. Defined.

Lemma default_date_round_trip_example :
  clock_ok clock_example
  ∧ ymd_form (datetime.strftime_Ymd clock_example)
    = Some (datetime.year clock_example, datetime.month clock_example,
            datetime.day clock_example)
  ∧ validate_date clock_example (datetime.strftime_Ymd clock_example)
    = Return (true, "Valid date")
  ∧ datetime.strptime_Ymd (datetime.strftime_Ymd clock_example)
    = Return (datetime.mk (datetime.year clock_example)
                (datetime.month clock_example) (datetime.day clock_example)
                0 0 0 0).
Proof.
  split; [exact clock_example_ok|].
  exact (default_date_round_trip clock_example clock_example_ok).
Defined.

(** ** What [get_valid_date] lets through *)

Lemma strip_no_final_newline (line p : string) :
  Py.strip line ≠ p +:+ String re.newline EmptyString.
Proof.
  intros H. by apply rstrip_last_not_space in H.
Qed.




(** ** The month prompt *)

Inductive my_shape : string → Z → Z → string → Prop :=
| my_shape_intro (m1 m2 y1 y2 y3 y4 : ascii) (rest : string) :
    Py.is_digit m1 = true → Py.is_digit m2 = true →
    Py.is_digit y1 = true → Py.is_digit y2 = true → Py.is_digit y3 = true →
    Py.is_digit y4 = true →
    my_shape
      (String m1 (String m2 (String "-" (String y1 (String y2 (String y3
         (String y4 rest)))))))
      (decimal (String m1 (String m2 EmptyString)))
      (decimal (String y1 (String y2 (String y3 (String y4 EmptyString)))))
      rest.

Lemma leading_my_shape (s : string) (m y : Z) (rest : string) :
  leading_my s = Some (m, y, rest) ↔ my_shape s m y rest.
Proof.
  split.
  - unfold leading_my.
    do 7 (destruct s as [|? s]; [done|]).
    destruct (_ && _) eqn:Hshape; [|done]. intros [= <- <- <-].
    cbn [all_digits] in Hshape.
    repeat match goal with
           | H : _ && _ = true |- _ => apply andb_prop in H as [? ?]
           | H : Ascii.eqb _ _ = true |- _ => apply Ascii.eqb_eq in H; subst
           end.
    by constructor.
  - intros []. unfold leading_my. cbn [all_digits].
    repeat match goal with
           | H : Py.is_digit _ = true |- _ => rewrite H; clear H
           end.
    by rewrite !Ascii.eqb_refl.
Qed.

Lemma my_fields_shape (s : string) (m y : Z) :
  my_fields s = Some (m, y) ↔ ∃ rest, my_shape s m y rest ∧ ends_ok rest = true.
Proof.
  unfold my_fields. split.
  - destruct (leading_my s) as [[[m' y'] rest]|] eqn:E; [|done].
    destruct (ends_ok rest) eqn:Hend; [|done]. intros [= -> ->].
    exists rest. by rewrite <- leading_my_shape.
  - intros (rest & Hs & Hend). apply leading_my_shape in Hs.
    by rewrite Hs, Hend.
Qed.

Lemma match_month_pattern (s : string) :
  Py.truthy (re.match_ month_pattern s) = Py.truthy (my_fields s).
Proof.
  unfold re.match_, month_pattern, my_fields, leading_my.
  do 7 (destruct s as [|? s];
        [by cbn [re.seq re.times re.run re.lit re.digit Nat.eqb Py.truthy];
            repeat case_match|]).
  cbn [re.seq re.times re.run re.lit re.digit Nat.eqb all_digits andb].
  repeat match goal with
         | |- context [Py.is_digit ?c] =>
             destruct (Py.is_digit c); cbn [andb]; [|done]
         | |- context [Ascii.eqb "-" ?c] =>
             destruct (Ascii.eqb "-" c); cbn [andb]; [|done]
         end.
  destruct s as [|c [|]]; cbn [ends_ok]; [done| |done].
  by destruct (Ascii.eqb c re.newline).
Qed.

Lemma parse_my_fields (s : string) (m y : Z) :
  my_fields s = Some (m, y) →
  Py.unpack2 Py.int (Py.split "-" s) = Return (m, y).
Proof.
  intros (rest & Hs & Hend)%my_fields_shape.
  destruct Hs as [m1 m2 y1 y2 y3 y4 rest Hm1 Hm2 Hy1 Hy2 Hy3 Hy4].
  apply ends_ok_cases in Hend as Hrest.
  assert (Py.split "-" rest = [rest]) as Hsplit
    by (by destruct Hrest as [-> | ->]).
  rewrite !split_digit, split_hyphen, !split_digit, Hsplit by done.
  unfold Py.unpack2.
  rewrite <- (append_empty_r (String m1 _)).
  change (String y1 (String y2 (String y3 (String y4 rest))))
    with (String y1 (String y2 (String y3 (String y4 EmptyString))) +:+ rest).
  rewrite !int_all_digits; cbn [all_digits];
    rewrite ?Hy1, ?Hy2, ?Hy3, ?Hy4, ?Hm1, ?Hm2; auto.
Qed.

Lemma check_month_input_verdict (now : datetime.t) (s : string) :
  check_month_input now s = Return (month_input_verdict now s).
Proof.
  unfold check_month_input, month_input_verdict.
  rewrite match_month_pattern.
  destruct (my_fields s) as [[m y]|] eqn:E; cbn [Py.truthy negb]; [|done].
  rewrite (parse_my_fields _ _ _ E).
  unfold mbind, result_bind, bind.
  destruct (Z.ltb_spec m 1), (Z.ltb_spec 12 m); cbn [orb try_except];
    case_decide; try lia; try done.
  destruct (Z.ltb_spec y 1900), (Z.ltb_spec (datetime.year now) y);
    cbn [orb try_except]; case_decide; try lia; done.
Qed.

Lemma my_fields_stripped (line : string) (m y : Z) :
  my_fields (Py.strip line) = Some (m, y) ↔ my_form (Py.strip line) = Some (m, y).
Proof.
  split.
  - intros (rest & Hshape & Hend)%my_fields_shape.
    apply ends_ok_cases in Hend as [-> | ->].
    + unfold my_form. apply leading_my_shape in Hshape. by rewrite Hshape.
    + exfalso.
      inversion Hshape as [m1 m2 y1 y2 y3 y4 rest' ? ? ? ? ? ? Hs]; subst.
      by apply (strip_no_final_newline line
                  (String m1 (String m2 (String "-" (String y1 (String y2
                     (String y3 (String y4 EmptyString)))))))).
  - unfold my_form, my_fields.
    destruct (leading_my (Py.strip line)) as [[[m' y'] [|]]|]; done.
Qed.

Lemma read_target_month_returns (lines : list (datetime.t * string)) :
  ∃ r, read_target_month lines = Return r
       ∧ ∀ m y, r = Some (m, y) →
           ∃ now line,
             (now, line) ∈ lines
             ∧ ((Py.strip line = EmptyString
                 ∧ m = datetime.month now ∧ y = datetime.year now)
                ∨ (my_form (Py.strip line) = Some (m, y)
                   ∧ 1 <= m <= 12 ∧ 1900 <= y <= datetime.year now)).
Proof.
  induction lines as [|[now line] lines (r & Hr & Hsome)].
  - exists None. by split.
  - cbn [read_target_month].
    destruct (String.eqb (Py.strip line) EmptyString) eqn:Hblank.
    { eexists. split; [done|]. intros m y [= <- <-].
      exists now, line. split; [left|]. left.
      split; [by apply String.eqb_eq | done]. }
    rewrite check_month_input_verdict. simpl.
    unfold month_input_verdict.
    destruct (my_fields (Py.strip line)) as [[m0 y0]|] eqn:Hf.
    + destruct (decide (1 <= m0 <= 12)) as [Hm|].
      * destruct (decide (1900 <= y0 <= datetime.year now)) as [Hy|].
        -- eexists. split; [done|]. intros m y [= <- <-].
           exists now, line. split; [left|]. right.
           by apply my_fields_stripped in Hf.
        -- exists r. split; [done|]. intros m y Hmy.
           destruct (Hsome m y Hmy) as (now' & line' & Hin & Hcase).
           exists now', line'. split; [by right | done].
      * exists r. split; [done|]. intros m y Hmy.
        destruct (Hsome m y Hmy) as (now' & line' & Hin & Hcase).
        exists now', line'. split; [by right | done].
    + exists r. split; [done|]. intros m y Hmy.
      destruct (Hsome m y Hmy) as (now' & line' & Hin & Hcase).
      exists now', line'. split; [by right | done].
Qed.


(** ** The month view *)

Lemma print_entries_returns (entries : list transaction) :
  Forall (λ t, float_convertible (amount t)) entries →
  print_entries entries = Return tt.
Proof.
  unfold print_entries. induction 1 as [|t entries Ht _ IH]; [done|].
  cbn [for_each]. unfold Py.format_8_2f. rewrite format_2f_spec.
  rewrite decide_True by done. apply IH.
Qed.

Lemma Forall_filter_keep {A : Type} (P Q : A → Prop) `{!∀ x, Decision (Q x)}
    (xs : list A) :
  Forall P xs → Forall P (filter Q xs).
Proof.
  rewrite !Forall_forall. intros HP x [_ Hx]%list_elem_of_filter. by apply HP.
Qed.

Lemma view_transactions_by_month_shows (tracker : BudgetTracker.t) (m y : Z) :
  Forall date_parses (BudgetTracker.transactions tracker) →
  Forall (λ t, float_convertible (amount t))
    (BudgetTracker.transactions tracker) →
  view_transactions_by_month tracker m y
  = match BudgetTracker.transactions tracker with
    | [] => Return NoTransactionsRecorded
    | ts =>
        match List.filter (parses_to m y) ts with
        | [] => Return (NoTransactionsFound m y)
        | found =>
            let monthly_income := Py.sum (income_amounts found) in
            let monthly_expenses := Py.sum (expense_amounts found) in
            if decide (float_convertible monthly_income
                       ∧ float_convertible monthly_expenses)
            then Return (MonthReport (filter (λ t, 0 < amount t) found)
                           (filter (λ t, amount t < 0) found)
                           monthly_income monthly_expenses
                           (monthly_income + monthly_expenses))
            else Raise (OverflowError "int too large to convert to float")
        end
    end.
Proof.
  intros Hall Hamounts. unfold view_transactions_by_month, month_transactions.
  destruct (BudgetTracker.transactions tracker) as [|t ts] eqn:E; [done|].
  rewrite for_each_month_step by done.
  unfold mbind at 1, result_bind at 1, bind at 1. cbn [app].
  assert (Forall (λ t, float_convertible (amount t))
            (List.filter (parses_to m y) (t :: ts))) as Hfound.
  { rewrite Forall_forall in Hamounts. apply Forall_forall.
    intros t' Hin. apply Hamounts.
    apply list_elem_of_In in Hin. apply filter_In in Hin as [Hin _].
    by apply list_elem_of_In. }
  destruct (List.filter (parses_to m y) (t :: ts)) as [|t0 found]; [done|].
  pose proof (income_transactions_filter (t0 :: found)) as Hinc.
  pose proof (expense_transactions_filter (t0 :: found)) as Hexp.
  destruct (BudgetTracker.partition_income_expense (t0 :: found))
    as [inc exp]. cbn [fst snd] in Hinc, Hexp. subst inc exp.
  rewrite !print_entries_returns by (by apply Forall_filter_keep).
  rewrite total_income_spec, total_expenses_spec.
  pose proof (format_summary _ _ (total_income_nonneg (t0 :: found))
                (total_expenses_nonpos (t0 :: found))) as Hfmt.
  cbv zeta. unfold mbind, result_bind, bind in *.
  case_decide; repeat case_match; congruence.
Qed.

(** X11: when every stored date parses and every stored amount can be
    formatted (an [int] that converts to float), the month view shows: the
    "no transactions recorded" notice exactly for the empty store; the
    "no transactions found" notice exactly when no stored date falls in the
    month asked for; otherwise the income and the expense entries of that
    month in insertion order, their two totals, each added up in that order,
    and the sum of the two totals as the monthly balance, unless one of the
    totals is beyond the range of floats: the summary then raises
    [OverflowError]. *)
Theorem month_view_contents (tracker : BudgetTracker.t) (m y : Z) :
  Forall date_parses (BudgetTracker.transactions tracker) →
  Forall (λ t, float_convertible (amount t))
    (BudgetTracker.transactions tracker) →
  view_transactions_by_month tracker m y
  = match BudgetTracker.transactions tracker with
    | [] => Return NoTransactionsRecorded
    | ts =>
        match List.filter (parses_to m y) ts with
        | [] => Return (NoTransactionsFound m y)
        | found =>
            let monthly_income := Py.sum (income_amounts found) in
            let monthly_expenses := Py.sum (expense_amounts found) in
            if decide (float_convertible monthly_income
                       ∧ float_convertible monthly_expenses)
            then Return (MonthReport (filter (λ t, 0 < amount t) found)
                           (filter (λ t, amount t < 0) found)
                           monthly_income monthly_expenses
                           (monthly_income + monthly_expenses))
            else Raise (OverflowError "int too large to convert to float")
        end
    end.
Proof. apply view_transactions_by_month_shows. Qed.

Lemma month_view_contents_example :
  let tracker :=
    run [ mk_call clock_example 100 "Salary" "Income" None;
          mk_call clock_example (-50) "Rent" "Housing" (Some "2024-01-15");
          mk_call clock_example (-20) "Food" "Groceries" (Some "2024-03-02") ] in
  Forall date_parses (BudgetTracker.transactions tracker)
  ∧ Forall (λ t, float_convertible (amount t))
      (BudgetTracker.transactions tracker)
  ∧ view_transactions_by_month tracker 3 2024
    = match BudgetTracker.transactions tracker with
      | [] => Return NoTransactionsRecorded
      | ts =>
          match List.filter (parses_to 3 2024) ts with
          | [] => Return (NoTransactionsFound 3 2024)
          | found =>
              let monthly_income := Py.sum (income_amounts found) in
              let monthly_expenses := Py.sum (expense_amounts found) in
              if decide (float_convertible monthly_income
                         ∧ float_convertible monthly_expenses)
              then Return (MonthReport (filter (λ t, 0 < amount t) found)
                             (filter (λ t, amount t < 0) found)
                             monthly_income monthly_expenses
                             (monthly_income + monthly_expenses))
              else Raise (OverflowError "int too large to convert to float")
          end
      end.
Proof.
  assert (Forall date_parses
            (BudgetTracker.transactions
               (run [ mk_call clock_example 100 "Salary" "Income" None;
                      mk_call clock_example (-50) "Rent" "Housing"
                        (Some "2024-01-15");
                      mk_call clock_example (-20) "Food" "Groceries"
                        (Some "2024-03-02") ]))) as Hall.
  { repeat constructor; eexists; vm_compute; reflexivity. }
  assert (Forall (λ t, float_convertible (amount t))
            (BudgetTracker.transactions
               (run [ mk_call clock_example 100 "Salary" "Income" None;
                      mk_call clock_example (-50) "Rent" "Housing"
                        (Some "2024-01-15");
                      mk_call clock_example (-20) "Food" "Groceries"
                        (Some "2024-03-02") ]))) as Hamounts.
  { repeat constructor; by vm_compute. }
  split; [exact Hall|]. split; [exact Hamounts|].
  exact (month_view_contents _ 3 2024 Hall Hamounts).
Defined.

(** ** A new transaction and the month views *)

Lemma parses_to_real_date (t : transaction) (y0 m0 d0 m y : Z) :
  ymd_form (date t) = Some (y0, m0, d0) → real_date y0 m0 d0 →
  parses_to m y t = (m0 =? m) && (y0 =? y).
Proof.
  intros Hform Hreal. unfold parses_to.
  by rewrite (strptime_real_date _ _ _ _ Hform Hreal).
Qed.

Lemma month_transactions_snoc (m y : Z) (ts : list transaction)
    (t : transaction) :
  Forall date_parses ts → date_parses t →
  month_transactions m y (ts ++ [t])
  = Return (List.filter (parses_to m y) ts
            ++ if parses_to m y t then [t] else []).
Proof.
  intros Hts Ht. unfold month_transactions.
  rewrite for_each_month_step by (apply Forall_app; auto).
  by rewrite List.filter_app.
Qed.

(** The day a well-dated call records: the one written by its date, or the
    day of the clock when the date is left out. *)
Lemma well_dated_day (c : call) :
  well_dated c →
  ∃ y0 m0 d0,
    ymd_form (date (record_of c)) = Some (y0, m0, d0) ∧ real_date y0 m0 d0
    ∧ (call_date c = None →
       y0 = datetime.year (call_now c) ∧ m0 = datetime.month (call_now c)
       ∧ d0 = datetime.day (call_now c)).
Proof.
  intros [Hnow Hdate]. unfold record_of. simpl.
  destruct (call_date c) as [s|]; simpl.
  - destruct Hdate as (y0 & m0 & d0 & Hform & Hreal).
    exists y0, m0, d0. split; [done|]. split; [done|]. done.
  - exists (datetime.year (call_now c)), (datetime.month (call_now c)),
      (datetime.day (call_now c)).
    split; [by apply strftime_ymd_form|].
    split; [by destruct Hnow as (_ & ? & _) | done].
Qed.

(** X12: on a store filled by well-dated calls (the date left out at a
    clock reading in a year from 1000 on, or a real calendar date in
    YYYY-MM-DD form), one more such call puts its
    record at the end of the view of its own month and year, the clock's
    month when the date is left out, and changes the view of no other month. *)
Theorem new_transaction_in_its_month_only (calls : list call) (c : call) :
  Forall well_dated calls → well_dated c →
  ∃ y0 m0 d0,
    ymd_form (date (record_of c)) = Some (y0, m0, d0)
    ∧ (call_date c = None →
       y0 = datetime.year (call_now c) ∧ m0 = datetime.month (call_now c))
    ∧ month_transactions m0 y0
        (BudgetTracker.transactions (apply_call (run calls) c))
      = Return (List.filter (parses_to m0 y0)
                  (BudgetTracker.transactions (run calls))
                ++ [record_of c])
    ∧ (∀ m y, ¬ (m = m0 ∧ y = y0) →
              month_transactions m y
                (BudgetTracker.transactions (apply_call (run calls) c))
              = month_transactions m y
                  (BudgetTracker.transactions (run calls))).
Proof.
  intros Hcalls Hc.
  destruct (well_dated_day c Hc) as (y0 & m0 & d0 & Hform & Hreal & Hnone).
  exists y0, m0, d0. split; [done|]. split; [intros H; by apply Hnone in H as (? & ? & _)|].
  assert (Forall date_parses (BudgetTracker.transactions (run calls))) as Hts.
  { rewrite run_transactions. apply Forall_fmap.
    eapply Forall_impl; [done|]. apply well_dated_parses. }
  pose proof (well_dated_parses c Hc) as Ht.
  rewrite apply_call_record. split.
  - rewrite month_transactions_snoc by done.
    rewrite (parses_to_real_date _ _ _ _ _ _ Hform Hreal).
    by rewrite !Z.eqb_refl.
  - intros m y Hne. rewrite month_transactions_snoc by done.
    rewrite (parses_to_real_date _ _ _ _ _ _ Hform Hreal).
    unfold month_transactions. rewrite for_each_month_step by done.
    destruct (Z.eqb_spec m0 m), (Z.eqb_spec y0 y); simpl;
      rewrite ?app_nil_r; try done.
    destruct Hne. by subst.
Qed.

Lemma new_transaction_in_its_month_only_example :
  let calls := [ mk_call clock_example (-50) "Rent" "Housing"
                   (Some "2024-01-15") ] in
  let c := mk_call clock_example 100 "Salary" "Income" None in
  Forall well_dated calls ∧ well_dated c
  ∧ ∃ y0 m0 d0,
      ymd_form (date (record_of c)) = Some (y0, m0, d0)
      ∧ (call_date c = None →
         y0 = datetime.year (call_now c) ∧ m0 = datetime.month (call_now c))
      ∧ month_transactions m0 y0
          (BudgetTracker.transactions (apply_call (run calls) c))
        = Return (List.filter (parses_to m0 y0)
                    (BudgetTracker.transactions (run calls))
                  ++ [record_of c])
      ∧ (∀ m y, ¬ (m = m0 ∧ y = y0) →
                month_transactions m y
                  (BudgetTracker.transactions (apply_call (run calls) c))
                = month_transactions m y
                    (BudgetTracker.transactions (run calls))).
Proof.
  assert (well_dated (mk_call clock_example (-50) "Rent" "Housing"
                        (Some "2024-01-15"))) as H1.
  { split; [exact clock_example_ok|]. exists 2024, 1, 15.
    split; [reflexivity | by vm_compute]. }
  assert (well_dated (mk_call clock_example 100 "Salary" "Income" None)) as H2.
  { split; [exact clock_example_ok | exact I]. }
  split; [exact (Forall_cons_2 _ _ _ H1 (Forall_nil_2 _))|].
  split; [exact H2|].
  exact (new_transaction_in_its_month_only _ _
           (Forall_cons_2 _ _ _ H1 (Forall_nil_2 _)) H2).
Defined.

(** ** Dates before 1900 *)

(** X14: [validate_date] accepts real calendar dates from the year 1 on, but
    the month prompt takes no year before 1900: once the clock is in 1900 or
    later, a transaction dated before 1900 passes validation and is shown by
    no month view that the prompt can ask for. *)
Theorem dates_before_1900_never_shown (now : datetime.t) (s : string)
    (y m d : Z) (lines : list (datetime.t * string)) :
  time_of_day_ok now → 1900 <= datetime.year now →
  Forall (λ l, 1900 <= datetime.year l.1) lines →
  ymd_form s = Some (y, m, d) → real_date y m d → y < 1900 →
  validate_date now s = Return (true, "Valid date")
  ∧ ∀ (t : transaction) (m' y' : Z),
      date t = s → read_target_month lines = Return (Some (m', y')) →
      parses_to m' y' t = false.
Proof.
  intros Hnow Hyear Hlines Hform Hreal Hold. split.
  - apply (validate_date_accepts_real_dates now s y m d); try done.
    unfold after_today. lia.
  - intros t m' y' Ht Hread.
    destruct (read_target_month_returns lines) as (r & Hr & Hsome).
    rewrite Hr in Hread. injection Hread as ->.
    destruct (Hsome m' y' eq_refl) as (now' & line & Hin & Hcase).
    rewrite Forall_forall in Hlines. specialize (Hlines _ Hin). simpl in Hlines.
    assert (1900 <= y') as Hy' by (destruct Hcase as [(_ & _ & ->)|(_ & _ & ?)]; lia).
    rewrite <- Ht in Hform.
    rewrite (parses_to_real_date t y m d m' y' Hform Hreal).
    destruct (Z.eqb_spec y y'); [lia|]. by rewrite andb_false_r.
Qed.

Lemma dates_before_1900_never_shown_example :
  let lines := [ (clock_example, "12-1899"); (clock_example, "") ] in
  time_of_day_ok clock_example ∧ 1900 <= datetime.year clock_example
  ∧ Forall (λ l, 1900 <= datetime.year l.1) lines
  ∧ ymd_form "1899-12-31" = Some (1899, 12, 31) ∧ real_date 1899 12 31
  ∧ 1899 < 1900
  ∧ validate_date clock_example "1899-12-31" = Return (true, "Valid date")
  ∧ ∀ (t : transaction) (m' y' : Z),
      date t = "1899-12-31" →
      read_target_month lines = Return (Some (m', y')) →
      parses_to m' y' t = false.
Proof.
  assert (time_of_day_ok clock_example) as H1 by (by vm_compute).
  assert (1900 <= datetime.year clock_example) as H2 by (by vm_compute).
  assert (Forall (λ l : datetime.t * string, 1900 <= datetime.year l.1)
            [ (clock_example, "12-1899"); (clock_example, "") ]) as H3
    by (repeat constructor; by vm_compute).
  assert (ymd_form "1899-12-31" = Some (1899, 12, 31)) as H4 by reflexivity.
  assert (real_date 1899 12 31) as H5 by (by vm_compute).
  assert (1899 < 1900) as H6 by lia.
  split; [exact H1|]. split; [exact H2|]. split; [exact H3|].
  split; [exact H4|]. split; [exact H5|]. split; [exact H6|].
  exact (dates_before_1900_never_shown clock_example "1899-12-31" 1899 12 31
           _ H1 H2 H3 H4 H5 H6).
Defined.

(** ** The clock and the verdict *)

Lemma not_in_future_same_day (now now' : datetime.t) (y m d : Z) :
  time_of_day_ok now → time_of_day_ok now' →
  datetime.year now = datetime.year now' →
  datetime.month now = datetime.month now' →
  datetime.day now = datetime.day now' →
  not_in_future now y m d = not_in_future now' y m d.
Proof.
  intros Hnow Hnow' Hy Hm Hd. unfold not_in_future.
  destruct (datetime.datetime y m d) as [dt|] eqn:E; [|done].
  apply datetime_returns in E as [-> _].
  pose proof (gt_midnight now y m d Hnow) as H1.
  pose proof (gt_midnight now' y m d Hnow') as H2.
  unfold after_today in H1, H2. rewrite Hy, Hm, Hd in H1.
  destruct (datetime.gt _ now), (datetime.gt _ now'); try done.
  - assert (true = true) as Ht by done. apply H1, H2 in Ht. done.
  - assert (true = true) as Ht by done. apply H2, H1 in Ht. done.
Qed.

(** X15: the verdict of [validate_date] depends on the clock through its day
    only, not through the time of day, so a date of the current day is valid
    from midnight on; and a date that is accepted stays accepted at every
    clock reading of the same or a later day. *)
Theorem validate_date_and_the_clock (now now' : datetime.t) (s : string) :
  time_of_day_ok now → time_of_day_ok now' →
  (datetime.year now = datetime.year now' →
   datetime.month now = datetime.month now' →
   datetime.day now = datetime.day now' →
   validate_date now s = validate_date now' s)
  ∧ (¬ after_today now' (datetime.year now) (datetime.month now)
         (datetime.day now) →
     validate_date now s = Return (true, "Valid date") →
     validate_date now' s = Return (true, "Valid date")).
Proof.
  intros Hnow Hnow'. split.
  - intros Hy Hm Hd. rewrite !validate_date_by_rules. f_equal.
    unfold validate_by_rules. destruct (fields s) as [[[y m] d]|]; [|done].
    unfold rules. cbn [first_failure].
    by rewrite (not_in_future_same_day now now' y m d).
  - intros Hlater Hok.
    apply validate_date_success in Hok as [_ (y & m & d & Hf & Hreal & Hday)];
      [|done].
    apply validate_date_success; [done|]. split; [done|].
    exists y, m, d. split; [done|]. split; [done|].
    unfold after_today in *. lia.
Qed.

Lemma validate_date_and_the_clock_example :
  let midnight := datetime.mk 2024 3 10 0 0 0 0 in
  time_of_day_ok midnight ∧ time_of_day_ok clock_example
  ∧ (datetime.year midnight = datetime.year clock_example →
     datetime.month midnight = datetime.month clock_example →
     datetime.day midnight = datetime.day clock_example →
     validate_date midnight "2024-03-10"
     = validate_date clock_example "2024-03-10")
  ∧ (¬ after_today clock_example (datetime.year midnight)
         (datetime.month midnight) (datetime.day midnight) →
     validate_date midnight "2024-03-10" = Return (true, "Valid date") →
     validate_date clock_example "2024-03-10" = Return (true, "Valid date")).
Proof.
  assert (time_of_day_ok (datetime.mk 2024 3 10 0 0 0 0)) as H1
    by (by vm_compute).
  assert (time_of_day_ok clock_example) as H2 by (by vm_compute).
  split; [exact H1|]. split; [exact H2|].
  exact (validate_date_and_the_clock (datetime.mk 2024 3 10 0 0 0 0)
           clock_example "2024-03-10" H1 H2).
Defined.

(** ** The confirmation line of [add_transaction] *)

